(** * DataPicker: a type-checking accessor over untyped JavaScript data

    A shallow embedding of [src/DataPicker.ts].  The class wraps a value of
    static type [Record<string, unknown>] together with a name, and every
    getter inspects the run-time type of what it finds.  The embedding
    therefore starts with the run-time universe of JavaScript values and
    the builtins the class calls ([typeof], [hasOwnProperty], [parseInt],
    [parseFloat], [Number.isFinite], [new Date], [Array.isArray]), then
    gives the class method by method, and finally the properties. *)

From Stdlib Require Import ZArith NArith List String Ascii Bool.
From Stdlib Require Import DecimalString DecimalNat Lia.
From Stdlib Require Import Floats.PrimFloat Floats.SpecFloat Floats.FloatOps.
Import ListNotations.

Open Scope list_scope.
Open Scope string_scope.

Set Warnings "-register-all,-inexact-float".

(** ** Exceptions

    The class throws [TypeError] and [ReferenceError]; a method that can
    throw returns a [result]. *)

Inductive error : Type :=
| TypeError (message : string)
| ReferenceError (message : string).

Inductive result (A : Type) : Type :=
| Ok (a : A)
| Throw (e : error).

Arguments Ok {A} a.
Arguments Throw {A} e.

Definition bind {A B : Type} (r : result A) (k : A -> result B) : result B :=
  match r with
  | Ok a => k a
  | Throw e => Throw e
  end.

Notation "x <- r ;; k" := (bind r (fun x => k))
  (at level 61, r at next level, right associativity).

Definition message_of (e : error) : string :=
  match e with
  | TypeError m => m
  | ReferenceError m => m
  end.

Definition is_TypeError {A : Type} (r : result A) : bool :=
  match r with
  | Throw (TypeError _) => true
  | _ => false
  end.

Definition is_ReferenceError {A : Type} (r : result A) : bool :=
  match r with
  | Throw (ReferenceError _) => true
  | _ => false
  end.

Definition is_Ok {A : Type} (r : result A) : bool :=
  match r with
  | Ok _ => true
  | Throw _ => false
  end.

(** ** Strings

    A JavaScript string is a sequence of UTF-16 code units; here it is a
    [string], one [ascii] per code unit, so only code units up to U+00FF
    are representable. *)

(** [s.includes(search)] *)
Fixpoint includes (s search : string) : bool :=
  String.prefix search s ||
  match s with
  | EmptyString => false
  | String _ s' => includes s' search
  end.

(** [`${ i }`] for a non-negative integer index [i] *)
Definition string_of_nat (i : nat) : string :=
  NilEmpty.string_of_uint (Nat.to_uint i).

(** An array index is a property key that is the canonical decimal
    rendering of an integer: ["0"], ["7"], ["10"], but not ["07"]. *)
Definition index_of_key (key : string) : option N :=
  match NilEmpty.uint_of_string key with
  | Some u =>
      let i := N.of_uint u in
      if NilEmpty.string_of_uint (N.to_uint i) =? key then Some i else None
  | None => None
  end.

(** ** Numbers

    A JavaScript number is an IEEE 754 binary64 value: Rocq's primitive
    [float].  Integers and decimal literals are converted with the
    round-to-nearest-even operations of [SpecFloat]. *)

Module Number.

Definition of_Z (z : Z) : float :=
  SF2Prim (binary_normalize prec emax z 0 false).

Definition of_nat (n : nat) : float := of_Z (Z.of_nat n).

(** The number nearest to [m * 10 ^ e10], for a non-negative [m]. *)
Definition of_decimal (m : N) (e10 : Z) : float :=
  match m with
  | N0 => zero
  | Npos p =>
      match e10 with
      | Zneg k =>
          SF2Prim (SFdiv prec emax (S754_finite false p 0)
                     (S754_finite false (10 ^ k) 0))
      | _ => of_Z (Zpos p * 10 ^ e10)
      end
  end.

(** [Number.isFinite(x)] for a number [x] *)
Definition isFinite (x : float) : bool := is_finite x.

(** [x > 0] *)
Definition positive (x : float) : bool := ltb zero x.

(** Rounding towards zero (ToIntegerOrInfinity on a finite number). *)
Definition truncate (x : float) : float :=
  match Prim2SF x with
  | S754_finite s m e =>
      let q := Z.shiftr (Zpos m) (- e) in
      of_Z (if s then - q else q)
  | _ => x
  end.

End Number.

(** ** Values

    What a property of the wrapped data can hold at run time.  Property
    lists keep insertion order, as JavaScript objects do; a lookup takes the
    first binding of a key.  Only own data properties are modelled: no
    accessors, no prototype chain, no sparse arrays. *)

(** A [Date] object, with its internal time value (milliseconds since the
    epoch, or NaN for an invalid date). *)
Record Date : Type := mkDate { DateValue : float }.

Inductive value : Type :=
| VUndefined
| VNull
| VBoolean (b : bool)
| VNumber (n : float)
| VBigInt (z : Z)
| VString (s : string)
| VSymbol (description : string)
| VFunction (props : list (string * value))
| VDate (d : Date)
| VArray (elems : list value)
| VObject (props : list (string * value)).

(** [typeof v] *)
Definition typeof (v : value) : string :=
  match v with
  | VUndefined => "undefined"
  | VNull => "object"
  | VBoolean _ => "boolean"
  | VNumber _ => "number"
  | VBigInt _ => "bigint"
  | VString _ => "string"
  | VSymbol _ => "symbol"
  | VFunction _ => "function"
  | VDate _ => "object"
  | VArray _ => "object"
  | VObject _ => "object"
  end.

(** [v === undefined] and [v === null] *)
Definition is_undefined (v : value) : bool :=
  match v with VUndefined => true | _ => false end.

Definition is_null (v : value) : bool :=
  match v with VNull => true | _ => false end.

(** [!!v] *)
Definition ToBoolean (v : value) : bool :=
  match v with
  | VUndefined => false
  | VNull => false
  | VBoolean b => b
  | VNumber n => negb (is_zero n || is_nan n)
  | VBigInt z => negb (z =? 0)%Z
  | VString s => negb (s =? "")
  | VSymbol _ => true
  | VFunction _ => true
  | VDate _ => true
  | VArray _ => true
  | VObject _ => true
  end.

(** [Array.isArray(v)] *)
Definition Array_isArray (v : value) : bool :=
  match v with VArray _ => true | _ => false end.

(** [v instanceof Date] *)
Definition instanceof_Date (v : value) : bool :=
  match v with VDate _ => true | _ => false end.

(** [Number.isFinite(v)]: false for everything that is not a number *)
Definition Number_isFinite (v : value) : bool :=
  match v with VNumber n => Number.isFinite n | _ => false end.

Fixpoint assoc (key : string) (props : list (string * value)) : option value :=
  match props with
  | [] => None
  | (k, v) :: rest => if k =? key then Some v else assoc key rest
  end.

(** The element at index [i], when [i] is below the length. *)
Definition element (elems : list value) (i : N) : option value :=
  if (i <? N.of_nat (List.length elems))%N then nth_error elems (N.to_nat i)
  else None.

Fixpoint code_units (s : string) : list value :=
  match s with
  | EmptyString => []
  | String c s' => VString (String c EmptyString) :: code_units s'
  end.

(** The own property [key] of the object [ToObject(o)], when that object
    has one.  Arrays own their indices and [length]; a string is wrapped
    in a String object, which owns its indices and [length]; the wrappers
    of the other primitives own nothing. *)
Definition own_property (o : value) (key : string) : option value :=
  match o with
  | VObject props => assoc key props
  | VFunction props => assoc key props
  | VArray elems =>
      if key =? "length" then Some (VNumber (Number.of_nat (List.length elems)))
      else match index_of_key key with
           | Some i => element elems i
           | None => None
           end
  | VString s =>
      if key =? "length" then Some (VNumber (Number.of_nat (String.length s)))
      else match index_of_key key with
           | Some i => element (code_units s) i
           | None => None
           end
  | _ => None
  end.

(** [Object.prototype.hasOwnProperty.call(o, key)]: ToObject throws a
    TypeError on [undefined] and [null]. *)
Definition hasOwnProperty (o : value) (key : string) : result bool :=
  match o with
  | VUndefined | VNull =>
      Throw (TypeError "Cannot convert undefined or null to object")
  | _ => Ok (match own_property o key with Some _ => true | None => false end)
  end.

(** [o[key]] for an own property; the class reads a member only after
    [has] has answered true.  A key that is not an own property reads as
    [undefined] here. *)
Definition member (o : value) (key : string) : value :=
  match own_property o key with
  | Some v => v
  | None => VUndefined
  end.

(** ** Parsing numbers: [Number.parseInt] and [Number.parseFloat]

    Both follow ECMAScript: leading white space is skipped, the longest
    prefix that is a literal is converted, and the answer is NaN when no
    prefix is one.  The conversion rounds the exact decimal value. *)

Definition is_white_space (c : ascii) : bool :=
  match N_of_ascii c with
  | 9%N | 10%N | 11%N | 12%N | 13%N | 32%N | 160%N => true
  | _ => false
  end.

Fixpoint trim_start (s : string) : string :=
  match s with
  | String c s' => if is_white_space c then trim_start s' else s
  | EmptyString => s
  end.

(** The value of [c] as a digit: 0 to 9, then a to z (or A to Z) for 10 to 35. *)
Definition digit_value (c : ascii) : option N :=
  let n := N_of_ascii c in
  if ((48 <=? n) && (n <=? 57))%N then Some (n - 48)%N
  else if ((97 <=? n) && (n <=? 122))%N then Some (n - 87)%N
  else if ((65 <=? n) && (n <=? 90))%N then Some (n - 55)%N
  else None.

(** The longest prefix of [s] made of digits of radix [R]: the integer it
    denotes after [acc], how many digits it has, and the rest of [s]. *)
Fixpoint digits (R : N) (s : string) (acc : N) (count : nat) : N * nat * string :=
  match s with
  | String c s' =>
      match digit_value c with
      | Some d => if (d <? R)%N then digits R s' (acc * R + d)%N (S count)
                  else (acc, count, s)
      | None => (acc, count, s)
      end
  | EmptyString => (acc, count, s)
  end.

Definition strip_sign (s : string) : bool * string :=
  match s with
  | String "-" s' => (true, s')
  | String "+" s' => (false, s')
  | _ => (false, s)
  end.

Definition signed (negative : bool) (x : float) : float :=
  if negative then opp x else x.

(** [Number.parseInt(s)], the radix left out: radix 16 after a [0x] or
    [0X] prefix, radix 10 otherwise. *)
Definition parseInt (s : string) : float :=
  let '(negative, s1) := strip_sign (trim_start s) in
  let '(R, s2) :=
    match s1 with
    | String "0" (String "x" r) => (16%N, r)
    | String "0" (String "X" r) => (16%N, r)
    | _ => (10%N, s1)
    end in
  let '(mathInt, count, _) := digits R s2 0%N 0%nat in
  match count with
  | O => nan
  | S _ => signed negative (Number.of_Z (Z.of_N mathInt))
  end.

(** The exponent part of a decimal literal, [e] or [E], an optional sign
    and at least one digit; 0 when [s] does not start with one. *)
Definition exponent_part (s : string) : Z :=
  match s with
  | String c s' =>
      if (c =? "e")%char || (c =? "E")%char then
        let '(negative, s'') := strip_sign s' in
        let '(e, count, _) := digits 10 s'' 0%N 0%nat in
        match count with
        | O => 0%Z
        | S _ => if negative then (- Z.of_N e)%Z else Z.of_N e
        end
      else 0%Z
  | EmptyString => 0%Z
  end.

(** [Number.parseFloat(s)] *)
Definition parseFloat (s : string) : float :=
  let '(negative, s1) := strip_sign (trim_start s) in
  if String.prefix "Infinity" s1 then signed negative infinity
  else
    let '(int, icount, s2) := digits 10 s1 0%N 0%nat in
    let '(mantissa, fcount, s3) :=
      match s2 with
      | String "." s' =>
          let '(m, count, r) := digits 10 s' int icount in
          (m, (count - icount)%nat, r)
      | _ => (int, 0%nat, s2)
      end in
    match (icount + fcount)%nat with
    | O => nan
    | S _ =>
        signed negative
          (Number.of_decimal mantissa (exponent_part s3 - Z.of_nat fcount))
    end.

(** ** Dates *)

(** TimeClip: a time value is an integral number of milliseconds within
    8.64e15 of the epoch, or NaN. *)
Definition TimeClip (time : float) : float :=
  if negb (Number.isFinite time) then nan
  else if ltb (Number.of_Z 8640000000000000) (abs time) then nan
  else Number.truncate time.

(** [new Date(n)] for a number [n] *)
Definition new_Date (n : float) : Date := mkDate (TimeClip n).

(** ** The host

    Three things the class uses are left to the host by ECMAScript and
    Node.js: [util.inspect], which renders a value for a diagnostic,
    [Date.parse], whose answer outside the ISO format is implementation
    defined, and the environment [process.env].  The class is modelled
    over any host. *)

Class Host : Type := {
  inspect : value -> string;
  Date_parse : string -> float;
  process_env : value
}.

(** ** The class *)

(** The two private fields. *)
Record DataPicker : Type := mkDataPicker { name : string; data : value }.

(** An argument of a call is either left out or passed; a parameter whose
    argument is left out is bound to [undefined]. *)
Definition parameter (argument : option value) : value :=
  match argument with
  | Some v => v
  | None => VUndefined
  end.

(** [typeof v !== 'object' || v === null] *)
Definition not_an_object (v : value) : bool :=
  negb (typeof v =? "object") || is_null v.

(** [Array.prototype.map] with a callback that can throw: the first
    exception ends the traversal.  [i] is the index of the head of [l]. *)
Fixpoint map_from {A B : Type} (f : A -> nat -> result B) (l : list A) (i : nat)
  : result (list B) :=
  match l with
  | [] => Ok []
  | item :: rest =>
      b <- f item i ;;
      bs <- map_from f rest (S i) ;;
      Ok (b :: bs)
  end.

Section Class.

Context {host : Host}.

(** [constructor(name, data)] *)
Definition new_DataPicker (name : string) (data : value) : result DataPicker :=
  if negb (typeof data =? "object") then
    Throw (TypeError ("Invalid data (expected object, got " ++ typeof data
                        ++ ": " ++ inspect data ++ ")"))
  else Ok (mkDataPicker name data).

(** [static env()] *)
Definition env : result DataPicker := new_DataPicker "process.env" process_env.

(** The message of the TypeError the getters throw:
    [`Invalid value for ${ key } in ${ this.name } (expected T, got: ${ inspect(value) })`] *)
Definition Invalid_value (this : DataPicker) (key expected : string) (got : value)
  : error :=
  TypeError ("Invalid value for " ++ key ++ " in " ++ name this
               ++ " (expected " ++ expected ++ ", got: " ++ inspect got ++ ")").

(** [`Missing key ${ key } in ${ this.name }`] *)
Definition Missing_key (this : DataPicker) (key : string) : error :=
  ReferenceError ("Missing key " ++ key ++ " in " ++ name this).

Definition has (this : DataPicker) (key : string) : result bool :=
  hasOwnProperty (data this) key.

Definition get (this : DataPicker) (key : string) (fallback : value)
  : result value :=
  present <- has this key ;;
  if present then Ok (member (data this) key)
  else if negb (is_undefined fallback) then Ok fallback
  else Throw (Missing_key this key).

Definition getString (this : DataPicker) (key : string) (fallback : value)
  : result string :=
  value <- get this key fallback ;;
  match value with
  | VString s => Ok s
  | _ => Throw (Invalid_value this key "string" value)
  end.

Definition getStringOptional (this : DataPicker) (key : string)
  : result (option string) :=
  present <- has this key ;;
  if negb present then Ok None
  else s <- getString this key VUndefined ;; Ok (Some s).

Definition getNumber (this : DataPicker) (key : string) (fallback : value)
  : result float :=
  value <- get this key fallback ;;
  let value :=
    match value with
    | VString s =>
        if includes s "." then VNumber (parseFloat s)
        else VNumber (parseInt s)
    | _ => value
    end in
  match value with
  | VNumber n =>
      if negb (Number.isFinite n)
      then Throw (Invalid_value this key "number" value)
      else Ok n
  | _ => Throw (Invalid_value this key "number" value)
  end.

Definition getNumberOptional (this : DataPicker) (key : string)
  : result (option float) :=
  present <- has this key ;;
  if negb present then Ok None
  else n <- getNumber this key VUndefined ;; Ok (Some n).

Definition getBoolean (this : DataPicker) (key : string) (fallback : value)
  : result bool :=
  value <- get this key fallback ;;
  match value with
  | VBoolean b => Ok b
  | _ => Ok (ToBoolean value)
  end.

Definition getBooleanOptional (this : DataPicker) (key : string)
  : result (option bool) :=
  present <- has this key ;;
  if negb present then Ok None
  else b <- getBoolean this key VUndefined ;; Ok (Some b).

Definition getDate (this : DataPicker) (key : string) (fallback : value)
  : result Date :=
  value <- get this key fallback ;;
  match value with
  | VDate d => Ok d
  | VString s =>
      let parsed := Date_parse s in
      if Number.isFinite parsed && Number.positive parsed
      then Ok (new_Date parsed)
      else Throw (Invalid_value this key "date" value)
  | VNumber n =>
      if Number.isFinite n && Number.positive n
      then Ok (new_Date n)
      else Throw (Invalid_value this key "date" value)
  | _ => Throw (Invalid_value this key "date" value)
  end.

Definition getDateOptional (this : DataPicker) (key : string)
  : result (option Date) :=
  present <- has this key ;;
  if negb present then Ok None
  else d <- getDate this key VUndefined ;; Ok (Some d).

Definition getArray (this : DataPicker) (key : string) (fallback : value)
  : result (list value) :=
  value <- get this key fallback ;;
  match value with
  | VArray elems => Ok elems
  | _ => Throw (Invalid_value this key "array" value)
  end.

(** The error of a bad element renders [value], the whole array. *)
Definition getObjectArray (this : DataPicker) (key : string) (fallback : value)
  : result (list DataPicker) :=
  value <- getArray this key fallback ;;
  map_from
    (fun item i =>
       if not_an_object item
       then Throw (Invalid_value this key "object" (VArray value))
       else new_DataPicker
              (name this ++ "." ++ key ++ "[" ++ string_of_nat i ++ "]") item)
    value 0.

Definition getObject (this : DataPicker) (key : string) (fallback : value)
  : result DataPicker :=
  value <- get this key fallback ;;
  if not_an_object value
  then Throw (Invalid_value this key "object" value)
  else new_DataPicker (name this ++ "." ++ key) value.

Definition getRawObject (this : DataPicker) (key : string) (fallback : value)
  : result value :=
  value <- get this key fallback ;;
  if not_an_object value
  then Throw (Invalid_value this key "object" value)
  else Ok value.

Definition raw (this : DataPicker) : value := data this.

End Class.

(** ** A reference host

    Closed examples are evaluated on this host.  Its [Date_parse] reads the
    ECMAScript date-time format ([YYYY-MM-DDTHH:mm:ss.sssZ] and its
    shorter forms), takes UTC as the local time zone and answers NaN for
    every other string, as ECMAScript allows.  Its [inspect] follows
    Node.js on values that Node.js prints on one line: numbers by
    Number::toString, strings quoted and escaped, arrays and objects
    nested at most two levels deep and rendered with their elements
    separated by commas.  It does not break long output over several
    lines, as Node.js does beyond 72 characters or six array elements, and
    it prints a function by its name alone. *)

Module Reference.

(** *** Calendar arithmetic *)

(** Days from the epoch to the first day of month [m] (1 to 12) of
    year [y], in the proleptic Gregorian calendar. *)
Definition days_from_civil (y m : Z) : Z :=
  let y' := (if m <=? 2 then y - 1 else y)%Z in
  let era := (y' / 400)%Z in
  let yoe := (y' - era * 400)%Z in
  let mp := (if m <=? 2 then m + 9 else m - 3)%Z in
  let doy := ((153 * mp + 2) / 5)%Z in
  let doe := (yoe * 365 + yoe / 4 - yoe / 100 + doy)%Z in
  (era * 146097 + doe - 719468)%Z.

(** Year, month and day of the month of a day number. *)
Definition civil_from_days (days : Z) : Z * Z * Z :=
  let z := (days + 719468)%Z in
  let era := (z / 146097)%Z in
  let doe := (z - era * 146097)%Z in
  let yoe := ((doe - doe / 1460 + doe / 36524 - doe / 146096) / 365)%Z in
  let doy := (doe - (365 * yoe + yoe / 4 - yoe / 100))%Z in
  let mp := ((5 * doy + 2) / 153)%Z in
  let d := (doy - (153 * mp + 2) / 5 + 1)%Z in
  let m := (if mp <? 10 then mp + 3 else mp - 9)%Z in
  let y := (yoe + era * 400 + (if m <=? 2 then 1 else 0))%Z in
  (y, m, d).

(** *** [Date.parse] *)

(** Exactly [n] decimal digits at the start of [s]. *)
Fixpoint fixed_digits (n : nat) (s : string) (acc : Z) : option (Z * string) :=
  match n with
  | O => Some (acc, s)
  | S n' =>
      match s with
      | String c s' =>
          let d := N_of_ascii c in
          if ((48 <=? d) && (d <=? 57))%N
          then fixed_digits n' s' (acc * 10 + Z.of_N (d - 48))%Z
          else None
      | EmptyString => None
      end
  end.

Definition year_part (s : string) : option (Z * string) :=
  match s with
  | String "+" s' => fixed_digits 6 s' 0
  | String "-" s' =>
      match fixed_digits 6 s' 0 with
      | Some (y, r) => if (y =? 0)%Z then None else Some ((- y)%Z, r)
      | None => None
      end
  | _ => fixed_digits 4 s 0
  end.

(** ["-" MM ["-" DD]] after the year; month 1 and day 1 when left out. *)
Definition month_day_part (s : string) : option (Z * Z * string) :=
  match s with
  | String "-" s1 =>
      match fixed_digits 2 s1 0 with
      | Some (m, String "-" s2) =>
          match fixed_digits 2 s2 0 with
          | Some (d, r) => Some (m, d, r)
          | None => None
          end
      | Some (m, r) => Some (m, 1%Z, r)
      | None => None
      end
  | _ => Some (1%Z, 1%Z, s)
  end.

(** [":" ss ["." sss]] after the minutes. *)
Definition seconds_part (s : string) : option (Z * Z * string) :=
  match s with
  | String ":" s1 =>
      match fixed_digits 2 s1 0 with
      | Some (sec, String "." s2) =>
          match fixed_digits 3 s2 0 with
          | Some (ms, r) => Some (sec, ms, r)
          | None => None
          end
      | Some (sec, r) => Some (sec, 0%Z, r)
      | None => None
      end
  | _ => Some (0%Z, 0%Z, s)
  end.

(** The offset from UTC in minutes, up to the end of the string. *)
Definition offset_part (s : string) : option Z :=
  match s with
  | EmptyString => Some 0%Z
  | String "Z" EmptyString => Some 0%Z
  | String c s1 =>
      if (c =? "+")%char || (c =? "-")%char then
        match fixed_digits 2 s1 0 with
        | Some (h, String ":" s2) =>
            match fixed_digits 2 s2 0 with
            | Some (m, EmptyString) =>
                if ((h <=? 23) && (m <=? 59))%Z
                then Some (if (c =? "-")%char then - (h * 60 + m) else h * 60 + m)%Z
                else None
            | _ => None
            end
        | _ => None
        end
      else None
  end.

(** Milliseconds within the day, less the offset. *)
Definition time_part (s : string) : option Z :=
  match s with
  | EmptyString => Some 0%Z
  | String "T" s1 =>
      match fixed_digits 2 s1 0 with
      | Some (h, String ":" s2) =>
          match fixed_digits 2 s2 0 with
          | Some (m, s3) =>
              match seconds_part s3 with
              | Some (sec, ms, s4) =>
                  match offset_part s4 with
                  | Some offset =>
                      if ((h <=? 23) && (m <=? 59) && (sec <=? 59)
                          || (h =? 24) && (m =? 0) && (sec =? 0) && (ms =? 0))%Z
                      then Some (h * 3600000 + m * 60000 + sec * 1000 + ms
                                 - offset * 60000)%Z
                      else None
                  | None => None
                  end
              | None => None
              end
          | None => None
          end
      | _ => None
      end
  | _ => None
  end.

Definition Date_parse (s : string) : float :=
  match year_part s with
  | Some (y, s1) =>
      match month_day_part s1 with
      | Some (m, d, s2) =>
          match time_part s2 with
          | Some t =>
              if ((1 <=? m) && (m <=? 12) && (1 <=? d) && (d <=? 31))%Z
              then TimeClip
                     (Number.of_Z
                        ((days_from_civil y m + d - 1) * 86400000 + t))
              else nan
          | None => nan
          end
      | None => nan
      end
  | None => nan
  end.

(** *** [util.inspect] *)

Definition string_of_Z (z : Z) : string :=
  match z with
  | Z0 => "0"
  | Zpos p => NilEmpty.string_of_uint (Pos.to_uint p)
  | Zneg p => "-" ++ NilEmpty.string_of_uint (Pos.to_uint p)
  end.

(** A non-negative [z] in at least [width] digits. *)
Definition padded (width : nat) (z : Z) : string :=
  let digits := string_of_Z z in
  String.concat "" (repeat "0" (width - String.length digits)) ++ digits.

(** Number::toString: the shortest decimal that reads back as [x]. *)

(** [n] with [10 ^ (n - 1) <= num / den < 10 ^ n], for positive [num] and
    [den]. *)
Fixpoint leading_zeros (fuel : nat) (den scaled : Z) (j : Z) : Z :=
  match fuel with
  | O => j
  | S fuel' =>
      if (den <=? scaled * 10)%Z then j
      else leading_zeros fuel' den (scaled * 10)%Z (j + 1)%Z
  end.

Definition magnitude (num den : Z) : Z :=
  if (den <=? num)%Z
  then Z.of_nat (String.length (string_of_Z (num / den)))
  else (- leading_zeros 400 den num 0)%Z.

(** The [k]-digit decimals next to [num / den]: [s * 10 ^ e] just below
    it and [(s + 1) * 10 ^ e] just above, and which of the two is nearer. *)
Definition neighbours (num den : Z) (k : Z) : Z * Z * bool :=
  let e := (magnitude num den - k)%Z in
  let A := (if 0 <=? e then num else num * 10 ^ (- e))%Z in
  let B := (if 0 <=? e then den * 10 ^ e else den)%Z in
  let s := (A / B)%Z in
  let r := (A mod B)%Z in
  (s, e, (r <? B - r)%Z || ((r =? B - r)%Z && Z.even s)).

Definition reads_back (x : float) (s e : Z) : bool :=
  eqb (Number.of_decimal (Z.to_N s) e) x.

(** The digits [s] and the exponent [e] of the shortest decimal
    [s * 10 ^ e] that reads back as the positive number [x = num / den],
    trying [k], [k + 1], ... digits. *)
Fixpoint shortest (fuel : nat) (x : float) (num den : Z) (k : Z) : Z * Z :=
  let '(s, e, low_is_nearer) := neighbours num den k in
  match fuel with
  | O => (s, e)
  | S fuel' =>
      match reads_back x s e, reads_back x (s + 1) e with
      | true, true => if low_is_nearer then (s, e) else ((s + 1)%Z, e)
      | true, false => (s, e)
      | false, true => ((s + 1)%Z, e)
      | false, false => shortest fuel' x num den (k + 1)%Z
      end
  end.

Fixpoint strip_zeros (fuel : nat) (s e : Z) : Z * Z :=
  match fuel with
  | O => (s, e)
  | S fuel' =>
      if (s mod 10 =? 0)%Z then strip_zeros fuel' (s / 10)%Z (e + 1)%Z
      else (s, e)
  end.

Definition zeros (n : Z) : string := String.concat "" (repeat "0" (Z.to_nat n)).

(** The text of [digits * 10 ^ (n - k)], where [k] is the length of
    [digits] (ECMAScript, Number::toString, steps 6 to 11). *)
Definition decimal_text (digits : string) (n : Z) : string :=
  let k := Z.of_nat (String.length digits) in
  if ((k <=? n) && (n <=? 21))%Z then digits ++ zeros (n - k)
  else if ((0 <? n) && (n <=? 21))%Z then
    substring 0 (Z.to_nat n) digits ++ "."
      ++ substring (Z.to_nat n) (Z.to_nat (k - n)) digits
  else if ((-6 <? n) && (n <=? 0))%Z then "0." ++ zeros (- n) ++ digits
  else
    let exponent :=
      (if (0 <? n - 1)%Z then "e+" else "e-") ++ string_of_Z (Z.abs (n - 1)) in
    match digits with
    | String d EmptyString => digits ++ exponent
    | String d rest => String d ("." ++ rest) ++ exponent
    | EmptyString => exponent
    end.

Definition Number_toString (x : float) : string :=
  match Prim2SF x with
  | S754_nan => "NaN"
  | S754_infinity s => if s then "-Infinity" else "Infinity"
  | S754_zero _ => "0"
  | S754_finite negative m e =>
      let num := (if 0 <=? e then Zpos m * 2 ^ e else Zpos m)%Z in
      let den := (if 0 <=? e then 1 else 2 ^ (- e))%Z in
      let '(s0, e0) := shortest 17 (abs x) num den 1 in
      let '(s, e10) := strip_zeros 20 s0 e0 in
      let digits := string_of_Z s in
      (if negative then "-" else "")
        ++ decimal_text digits (e10 + Z.of_nat (String.length digits))
  end.

(** [util.inspect] of a number: Number::toString, but [-0] is shown. *)
Definition inspect_number (n : float) : string :=
  match Prim2SF n with
  | S754_zero true => "-0"
  | _ => Number_toString n
  end.

(** [Date.prototype.toISOString] *)
Definition inspect_date (d : Date) : string :=
  match Prim2SF (DateValue d) with
  | S754_zero _ | S754_finite _ _ _ =>
      let t :=
        match Prim2SF (DateValue d) with
        | S754_finite s m e =>
            let q := Z.shiftr (Zpos m) (- e) in if s then (- q)%Z else q
        | _ => 0%Z
        end in
      let '(y, m, dd) := civil_from_days (t / 86400000) in
      let ms := (t mod 86400000)%Z in
      (if ((0 <=? y) && (y <=? 9999))%Z then padded 4 y
       else if (y <? 0)%Z then "-" ++ padded 6 (- y)
       else "+" ++ padded 6 y)
        ++ "-" ++ padded 2 m ++ "-" ++ padded 2 dd
        ++ "T" ++ padded 2 (ms / 3600000)
        ++ ":" ++ padded 2 (ms / 60000 mod 60)
        ++ ":" ++ padded 2 (ms / 1000 mod 60)
        ++ "." ++ padded 3 (ms mod 1000) ++ "Z"
  | _ => "Invalid Date"
  end.

Definition is_identifier_start (c : ascii) : bool :=
  let n := N_of_ascii c in
  ((97 <=? n) && (n <=? 122) || (65 <=? n) && (n <=? 90) || (n =? 95))%N.

Fixpoint all_identifier_part (s : string) : bool :=
  match s with
  | EmptyString => true
  | String c s' =>
      (is_identifier_start c
       || ((48 <=? N_of_ascii c) && (N_of_ascii c <=? 57))%N)
      && all_identifier_part s'
  end.

(** *** Strings: Node.js prefers single quotes, takes double quotes for a
    string with a single quote in it and backticks for one with both, and
    escapes the quote, the backslash and the control characters. *)

Definition hex_digit (n : N) : ascii :=
  ascii_of_N (if (n <? 10)%N then 48 + n else 55 + n).

Definition escape (quote c : ascii) : string :=
  let n := N_of_ascii c in
  if ((c =? quote)%char && (quote =? "'")%char) then "\'"
  else if (n =? 92)%N then "\\"
  else if (n =? 8)%N then "\b"
  else if (n =? 9)%N then "\t"
  else if (n =? 10)%N then "\n"
  else if (n =? 12)%N then "\f"
  else if (n =? 13)%N then "\r"
  else if ((n <? 32) || (126 <? n) && (n <? 160))%N
  then "\x" ++ String (hex_digit (n / 16)) (String (hex_digit (n mod 16)) "")
  else String c "".

Fixpoint escaped (quote : ascii) (s : string) : string :=
  match s with
  | EmptyString => ""
  | String c s' => escape quote c ++ escaped quote s'
  end.

Definition quoted (s : string) : string :=
  let quote :=
    if negb (includes s "'") then "'"%char
    else if negb (includes s (String (ascii_of_N 34) "")) then ascii_of_N 34
    else if negb (includes s "`") && negb (includes s "${") then "`"%char
    else "'"%char in
  String quote (escaped quote s ++ String quote "").

(** A property key is printed bare when it is an identifier. *)
Definition inspect_key (key : string) : string :=
  match key with
  | String c rest =>
      if is_identifier_start c && all_identifier_part rest
      then key else quoted key
  | EmptyString => quoted key
  end.

(** [depth] counts the objects around [v]; beyond two levels Node.js
    prints a non-empty object as [[Object]] and a non-empty array as
    [[Array]]. *)
Fixpoint inspect_at (depth : nat) (v : value) : string :=
  match v with
  | VUndefined => "undefined"
  | VNull => "null"
  | VBoolean b => if b then "true" else "false"
  | VNumber n => inspect_number n
  | VBigInt z => string_of_Z z ++ "n"
  | VString s => quoted s
  | VSymbol description => "Symbol(" ++ description ++ ")"
  | VFunction props =>
      match assoc "name" props with
      | Some (VString (String c f)) => "[Function: " ++ String c f ++ "]"
      | _ => "[Function (anonymous)]"
      end
  | VDate d => inspect_date d
  | VArray [] => "[]"
  | VArray elems =>
      if (2 <? depth)%nat then "[Array]"
      else "[ " ++ String.concat ", " (map (inspect_at (S depth)) elems) ++ " ]"
  | VObject [] => "{}"
  | VObject props =>
      if (2 <? depth)%nat then "[Object]"
      else "{ " ++ String.concat ", "
                     (map (fun p => (inspect_key (fst p) ++ ": "
                                       ++ inspect_at (S depth) (snd p))%string)
                        props)
                ++ " }"
  end.

Definition inspect (v : value) : string := inspect_at 0 v.

End Reference.

#[export] Instance reference_host : Host := {|
  inspect := Reference.inspect;
  Date_parse := Reference.Date_parse;
  process_env := VObject [("NODE_ENV", VString "development")]
|}.

(** ** Words of the specification *)

(** A non-null structured value: what the class accepts as an object. *)
Definition structured (v : value) : Prop :=
  typeof v = "object" /\ v <> VNull.

(** The value [getNumber] validates: a string is parsed first, with
    [parseFloat] when it holds a decimal point and [parseInt] otherwise. *)
Definition after_parse (v : value) : value :=
  match v with
  | VString s =>
      VNumber (if includes s "." then parseFloat s else parseInt s)
  | _ => v
  end.

(** The values standard truthiness takes to false. *)
Definition falsy (v : value) : Prop :=
  v = VUndefined \/ v = VNull \/ v = VBoolean false \/ v = VString ""
  \/ (exists n, v = VNumber n /\ (is_zero n = true \/ is_nan n = true))
  \/ v = VBigInt 0.

(** The label of the child at index [i] of the array under [key]. *)
Definition element_label (parent key : string) (i : nat) : string :=
  parent ++ "." ++ key ++ "[" ++ string_of_nat i ++ "]".

(** The message names every one of [parts]. *)
Definition mentions (message : string) (parts : list string) : Prop :=
  Forall (fun part => includes message part = true) parts.

(** A plain object with the single property [key]. *)
Definition singleton (key : string) (v : value) : value :=
  VObject [(key, v)].

Section Getters.

Context {host : Host}.

(** Two calls on which all eight getters give the same outcome. *)
Definition getters_agree (this that : DataPicker) (key : string)
    (fallback fallback' : value) : Prop :=
  getString this key fallback = getString that key fallback'
  /\ getNumber this key fallback = getNumber that key fallback'
  /\ getBoolean this key fallback = getBoolean that key fallback'
  /\ getDate this key fallback = getDate that key fallback'
  /\ getArray this key fallback = getArray that key fallback'
  /\ getObjectArray this key fallback = getObjectArray that key fallback'
  /\ getObject this key fallback = getObject that key fallback'
  /\ getRawObject this key fallback = getRawObject that key fallback'.

(** The traversal of [getObjectArray], started at index [i]. *)
Definition wrap_elements (this : DataPicker) (key : string) (all : list value)
    (elems : list value) (i : nat) : result (list DataPicker) :=
  map_from
    (fun item i =>
       if not_an_object item
       then Throw (Invalid_value this key "object" (VArray all))
       else new_DataPicker
              (name this ++ "." ++ key ++ "[" ++ string_of_nat i ++ "]") item)
    elems i.

(** A call on which all eight getters throw [e]. *)
Definition getters_throw (this : DataPicker) (key : string) (fallback : value)
    (e : error) : Prop :=
  getString this key fallback = Throw e
  /\ getNumber this key fallback = Throw e
  /\ getBoolean this key fallback = Throw e
  /\ getDate this key fallback = Throw e
  /\ getArray this key fallback = Throw e
  /\ getObjectArray this key fallback = Throw e
  /\ getObject this key fallback = Throw e
  /\ getRawObject this key fallback = Throw e.

End Getters.

(** * Properties *)

(** ** Strings *)

Lemma prefix_app (k b : string) : String.prefix k (k ++ b) = true.
Proof.
  induction k as [|c k IH]; simpl.
  - destruct b; reflexivity.
  - destruct (ascii_dec c c) as [_|n]; [exact IH | now elim n].
Qed.

Lemma includes_unfold (s search : string) :
  includes s search =
    String.prefix search s ||
    match s with
    | EmptyString => false
    | String _ s' => includes s' search
    end.
Proof. destruct s; reflexivity. Qed.

Lemma includes_prefix (k b : string) : includes (k ++ b) k = true.
Proof. rewrite includes_unfold, prefix_app. reflexivity. Qed.

Lemma append_empty_r (s : string) : s ++ "" = s.
Proof. induction s; simpl; congruence. Qed.

(** ** Own properties and raw lookup *)

Lemma typeof_object_inv (v : value) :
  typeof v = "object" ->
  v = VNull \/ (exists d, v = VDate d) \/ (exists l, v = VArray l)
  \/ (exists p, v = VObject p).
Proof.
  destruct v; simpl; intros H; try discriminate; eauto.
Qed.

Lemma not_an_object_false (v : value) :
  not_an_object v = false <-> structured v.
Proof.
  unfold not_an_object, structured.
  destruct v; simpl; split; try discriminate;
    try (intros [Htype Hnull]; congruence);
    intros _; split; congruence.
Qed.

Lemma not_an_object_true (v : value) :
  not_an_object v = true <-> ~ structured v.
Proof.
  rewrite <- not_an_object_false.
  destruct (not_an_object v); split; intros; congruence.
Qed.

Section Lookup.

Context {host : Host}.

Lemma has_true (this : DataPicker) (key : string) :
  has this key = Ok true ->
  exists stored, own_property (data this) key = Some stored
                 /\ member (data this) key = stored.
Proof.
  unfold has, hasOwnProperty, member.
  destruct (data this); try discriminate;
    destruct (own_property _ key); intros H; try discriminate; eauto.
Qed.

Lemma has_total (this : DataPicker) (key : string) :
  structured (data this) ->
  has this key = Ok true \/ has this key = Ok false.
Proof.
  unfold has, hasOwnProperty, structured.
  destruct (data this); simpl; intros [Htype Hnull];
    try discriminate; try congruence;
    repeat match goal with
           | |- context [if ?c then _ else _] => destruct c
           | |- context [match ?o with Some _ => _ | None => _ end] =>
               destruct o
           end; auto.
Qed.

Lemma is_undefined_true (v : value) : is_undefined v = true -> v = VUndefined.
Proof. destruct v; simpl; congruence. Qed.

Lemma get_present (this : DataPicker) (key : string) (fallback : value) :
  has this key = Ok true ->
  get this key fallback = Ok (member (data this) key).
Proof. unfold get. intros ->. reflexivity. Qed.

Lemma get_absent (this : DataPicker) (key : string) (fallback : value) :
  has this key = Ok false ->
  get this key fallback =
    if is_undefined fallback then Throw (Missing_key this key) else Ok fallback.
Proof. unfold get. intros ->. simpl. now destruct (is_undefined fallback). Qed.

Lemma is_undefined_false (v : value) :
  v <> VUndefined -> is_undefined v = false.
Proof. destruct v; simpl; congruence. Qed.

Lemma has_singleton (label key : string) (v : value) :
  has (mkDataPicker label (singleton key v)) key = Ok true.
Proof. unfold has; simpl. now rewrite String.eqb_refl. Qed.

Lemma get_singleton (label key : string) (v fallback : value) :
  get (mkDataPicker label (singleton key v)) key fallback = Ok v.
Proof.
  rewrite get_present by apply has_singleton.
  unfold member; simpl. now rewrite String.eqb_refl.
Qed.

(** The getters look at the data only through [get]. *)
Lemma getters_agree_of_get (this that : DataPicker) (key : string)
    (fallback fallback' : value) :
  name this = name that ->
  get this key fallback = get that key fallback' ->
  getters_agree this that key fallback fallback'.
Proof.
  intros Hname Hget.
  unfold getters_agree, getString, getNumber, getBoolean, getDate,
    getObjectArray, getArray, getObject, getRawObject, Invalid_value.
  rewrite Hget, Hname. repeat split; reflexivity.
Qed.

End Lookup.

(** C1: the raw lookup follows the three-step policy.  A key the source
    owns gives its stored value, whatever the fallback and whatever the
    value ([null], [undefined], [false], [0] and the empty string
    included); a key the source does not own gives the fallback when there
    is one; it throws the missing-key ReferenceError when there is none.
    Every getter sees the source only through this lookup: two calls whose
    raw lookups agree, under one label, agree on all eight getters. *)
Theorem raw_lookup_policy {host : Host} (this : DataPicker) (key : string)
    (fallback : value) :
  (has this key = Ok true ->
   exists stored,
     own_property (data this) key = Some stored
     /\ get this key fallback = Ok stored)
  /\ (forall stored,
        In stored [VNull; VUndefined; VBoolean false; VNumber zero; VString ""] ->
        get (mkDataPicker (name this) (singleton key stored)) key fallback
        = Ok stored)
  /\ (has this key = Ok false -> fallback <> VUndefined ->
      get this key fallback = Ok fallback)
  /\ (has this key = Ok false -> fallback = VUndefined ->
      get this key fallback = Throw (Missing_key this key)
      /\ is_ReferenceError (get this key fallback) = true)
  /\ (forall that fallback',
        name that = name this ->
        get that key fallback' = get this key fallback ->
        getters_agree that this key fallback' fallback).
Proof.
  split; [|split; [|split; [|split]]].
  - intros H. destruct (has_true this key H) as [stored [Hown Hmem]].
    exists stored. split; [exact Hown|]. now rewrite get_present, Hmem.
  - intros stored _. apply get_singleton.
  - intros H Hf. now rewrite get_absent, is_undefined_false.
  - intros H ->. rewrite get_absent by assumption. split; reflexivity.
  - intros that fallback' Hname Hget. now apply getters_agree_of_get.
Qed.

Lemma raw_lookup_policy_witness :
  (has (mkDataPicker "process.env" (singleton "PORT" VNull)) "PORT" = Ok true
   /\ exists stored,
        own_property (singleton "PORT" VNull) "PORT" = Some stored
        /\ get (mkDataPicker "process.env" (singleton "PORT" VNull)) "PORT"
             (VString "8080") = Ok stored)
  /\ (has (mkDataPicker "process.env" (singleton "PORT" VNull)) "HOST" = Ok false
      /\ get (mkDataPicker "process.env" (singleton "PORT" VNull)) "HOST"
           (VString "localhost") = Ok (VString "localhost")
      /\ get (mkDataPicker "process.env" (singleton "PORT" VNull)) "HOST"
           VUndefined
         = Throw (ReferenceError "Missing key HOST in process.env")).
Proof.
  split; split; try reflexivity.
  - apply (proj1 (raw_lookup_policy (host := reference_host)
                    (mkDataPicker "process.env" (singleton "PORT" VNull))
                    "PORT" (VString "8080"))).
    reflexivity.
  - split.
    + apply (proj1 (proj2 (proj2 (raw_lookup_policy (host := reference_host)
               (mkDataPicker "process.env" (singleton "PORT" VNull))
               "HOST" (VString "localhost")))));
        [reflexivity | discriminate].
    + apply (proj1 (proj2 (proj2 (proj2 (raw_lookup_policy
               (host := reference_host)
               (mkDataPicker "process.env" (singleton "PORT" VNull))
               "HOST" VUndefined)))));
        reflexivity.
Defined.

(** ** Construction *)

(** C2: construction throws exactly when [typeof] of the source is not
    ['object'].  [typeof null] is ['object'], so a [null] source is
    accepted, and the accessor built around it throws on every lookup. *)
Theorem constructor_accepts_null {host : Host} (label : string) :
  new_DataPicker label VNull = Ok (mkDataPicker label VNull)
  /\ (forall key,
        has (mkDataPicker label VNull) key
        = Throw (TypeError "Cannot convert undefined or null to object"))
  /\ (forall source,
        is_TypeError (new_DataPicker label source) = true
        <-> typeof source <> "object")
  /\ (forall source,
        new_DataPicker label source = Ok (mkDataPicker label source)
        <-> typeof source = "object").
Proof.
  split; [reflexivity|]. split; [reflexivity|].
  split; intros source; unfold new_DataPicker;
    destruct source; simpl; split; congruence.
Qed.

(** ** Numbers *)

Lemma getNumber_after_parse {host : Host} (this : DataPicker) (key : string)
    (fallback : value) :
  getNumber this key fallback =
    v <- get this key fallback ;;
    match after_parse v with
    | VNumber n =>
        if Number.isFinite n then Ok n
        else Throw (Invalid_value this key "number" (after_parse v))
    | _ => Throw (Invalid_value this key "number" (after_parse v))
    end.
Proof.
  unfold getNumber. destruct (get this key fallback) as [v|e]; simpl; auto.
  destruct v; simpl; try reflexivity.
  - now destruct (Number.isFinite n).
  - destruct (includes s "."); simpl;
      match goal with |- context [Number.isFinite ?x] =>
        now destruct (Number.isFinite x) end.
Qed.

(** C3: [getNumber] validates the looked-up value after the parse step (a
    string holding a decimal point goes through [parseFloat], any other
    string through [parseInt], everything else is left alone): it returns
    that value when it is a finite number and throws the TypeError
    otherwise, and a failed lookup is passed on.  ["3.14"] gives 3.14,
    ["42"] gives 42, and ["abc"], an infinite number, a string that parses
    to infinity, a boolean and [null] are all rejected. *)
Theorem getNumber_parses_then_requires_finite {host : Host} :
  (forall this key fallback v,
      get this key fallback = Ok v ->
      (forall n, getNumber this key fallback = Ok n
                 <-> after_parse v = VNumber n /\ Number.isFinite n = true)
      /\ (is_TypeError (getNumber this key fallback) = true
          <-> Number_isFinite (after_parse v) = false)
      /\ (Number_isFinite (after_parse v) = false ->
          getNumber this key fallback
          = Throw (Invalid_value this key "number" (after_parse v))))
  /\ (forall this key fallback e,
        get this key fallback = Throw e -> getNumber this key fallback = Throw e)
  /\ (forall s, includes s "." = true ->
                after_parse (VString s) = VNumber (parseFloat s))
  /\ (forall s, includes s "." = false ->
                after_parse (VString s) = VNumber (parseInt s))
  /\ (forall v, typeof v <> "string" -> after_parse v = v)
  /\ (forall label fallback,
        getNumber (mkDataPicker label (singleton "k" (VString "3.14"))) "k" fallback
        = Ok 3.14%float
        /\ getNumber (mkDataPicker label (singleton "k" (VString "42"))) "k" fallback
           = Ok 42%float
        /\ forall bad,
             In bad [VString "abc"; VNumber infinity; VNumber nan;
                     VString "1.0e999"; VBoolean true; VNull; VUndefined;
                     VArray [VNumber 1%float]] ->
             is_TypeError
               (getNumber (mkDataPicker label (singleton "k" bad)) "k" fallback)
             = true).
Proof.
  split; [|split; [|split; [|split; [|split]]]].
  - intros this key fallback v Hget.
    rewrite getNumber_after_parse, Hget. simpl.
    destruct (after_parse v) as [| |b|x|z|s|d|p|d|l|p] eqn:E; simpl;
      try (split; [|split];
           [ intros n; split; [discriminate | intros [? _]; discriminate]
           | split; reflexivity
           | reflexivity ]).
    destruct (Number.isFinite x) eqn:F; simpl.
    + split; [|split].
      * intros n; split; [intros [= <-]; auto | intros [[= <-] _]; reflexivity].
      * split; discriminate.
      * discriminate.
    + split; [|split].
      * intros n; split; [discriminate | intros [[= <-] ?]; congruence].
      * split; reflexivity.
      * reflexivity.
  - intros this key fallback e Hget. unfold getNumber. now rewrite Hget.
  - intros s H. simpl. now rewrite H.
  - intros s H. simpl. now rewrite H.
  - intros v H. destruct v; simpl in *; congruence.
  - intros label fallback. split; [|split].
    + unfold getNumber. rewrite get_singleton. reflexivity.
    + unfold getNumber. rewrite get_singleton. reflexivity.
    + intros bad Hin. unfold getNumber. rewrite get_singleton.
      simpl in Hin.
      repeat (destruct Hin as [<-|Hin]; [reflexivity|]). elim Hin.
Qed.

Lemma getNumber_parses_then_requires_finite_witness :
  get (mkDataPicker "process.env" (singleton "PORT" (VString "8080.5")))
    "PORT" VUndefined = Ok (VString "8080.5")
  /\ getNumber (host := reference_host)
       (mkDataPicker "process.env" (singleton "PORT" (VString "8080.5")))
       "PORT" VUndefined = Ok 8080.5%float.
Proof.
  split; [reflexivity|].
  apply (proj1 (getNumber_parses_then_requires_finite (host := reference_host))
           (mkDataPicker "process.env" (singleton "PORT" (VString "8080.5")))
           "PORT" VUndefined (VString "8080.5") eq_refl).
  split; reflexivity.
Defined.

(** ** Dates *)

(** C4: [getDate] checks the looked-up value in order.  A [Date] is
    returned as it is; a string is parsed and gives the parsed date only
    when the parse is finite and strictly positive; a finite, strictly
    positive number is taken as a time value; everything else is rejected
    with the TypeError, the numbers 0, -5 and NaN and the strings that do
    not parse among them.  The number 1000 gives the date one second after
    the epoch. *)
Theorem getDate_checks_in_order {host : Host} (this : DataPicker)
    (key : string) (fallback v : value) :
  get this key fallback = Ok v ->
  (forall d, v = VDate d -> getDate this key fallback = Ok d)
  /\ (forall s, v = VString s ->
        (Number.isFinite (Date_parse s) = true ->
         Number.positive (Date_parse s) = true ->
         getDate this key fallback = Ok (new_Date (Date_parse s)))
        /\ (Number.isFinite (Date_parse s) = false
            \/ Number.positive (Date_parse s) = false ->
            getDate this key fallback
            = Throw (Invalid_value this key "date" v)))
  /\ (forall n, v = VNumber n ->
        (Number.isFinite n = true -> Number.positive n = true ->
         getDate this key fallback = Ok (new_Date n))
        /\ (Number.isFinite n = false \/ Number.positive n = false ->
            getDate this key fallback
            = Throw (Invalid_value this key "date" v)))
  /\ (instanceof_Date v = false ->
      typeof v <> "string" -> typeof v <> "number" ->
      getDate this key fallback = Throw (Invalid_value this key "date" v))
  /\ (forall n,
        In n [zero; neg_zero; (-5)%float; nan; infinity; neg_infinity] ->
        v = VNumber n ->
        is_TypeError (getDate this key fallback) = true)
  /\ (v = VNumber 1000%float ->
      getDate this key fallback = Ok (mkDate 1000%float)).
Proof.
  intros Hget. unfold getDate. rewrite Hget. simpl.
  split; [|split; [|split; [|split; [|split]]]].
  - intros d ->. reflexivity.
  - intros s ->. split.
    + intros -> ->. reflexivity.
    + intros [-> | ->]; [reflexivity | now rewrite andb_false_r].
  - intros n ->. split.
    + intros -> ->. reflexivity.
    + intros [-> | ->]; [reflexivity | now rewrite andb_false_r].
  - intros Hdate Hstring Hnumber.
    destruct v; simpl in *; try reflexivity; try congruence.
  - intros n Hin ->. simpl in Hin.
    repeat (destruct Hin as [<-|Hin]; [reflexivity|]). elim Hin.
  - intros ->. reflexivity.
Qed.

Lemma getDate_checks_in_order_witness :
  get (mkDataPicker "event" (singleton "at" (VString "2020-01-01T12:30:15.250Z")))
    "at" VUndefined = Ok (VString "2020-01-01T12:30:15.250Z")
  /\ getDate (host := reference_host)
       (mkDataPicker "event" (singleton "at" (VString "2020-01-01T12:30:15.250Z")))
       "at" VUndefined = Ok (mkDate 1577881815250%float)
  /\ getDate (host := reference_host)
       (mkDataPicker "event" (singleton "at" (VString "not-a-date")))
       "at" VUndefined
     = Throw (TypeError
                "Invalid value for at in event (expected date, got: 'not-a-date')").
Proof.
  split; [reflexivity|]. split.
  - apply (proj1 (proj1 (proj2 (getDate_checks_in_order (host := reference_host)
             (mkDataPicker "event"
                (singleton "at" (VString "2020-01-01T12:30:15.250Z")))
             "at" VUndefined (VString "2020-01-01T12:30:15.250Z") eq_refl))
             "2020-01-01T12:30:15.250Z" eq_refl));
      reflexivity.
  - apply (proj2 (proj1 (proj2 (getDate_checks_in_order (host := reference_host)
             (mkDataPicker "event" (singleton "at" (VString "not-a-date")))
             "at" VUndefined (VString "not-a-date") eq_refl))
             "not-a-date" eq_refl)).
    left. reflexivity.
Defined.

(** ** Booleans *)

Lemma ToBoolean_false (v : value) : ToBoolean v = false <-> falsy v.
Proof.
  unfold falsy. destruct v; simpl; split; intros H;
    try discriminate; try tauto;
    try (decompose [or ex and] H; discriminate).
  - subst b. tauto.
  - decompose [or ex and] H; congruence.
  - apply negb_false_iff, orb_true_iff in H. do 4 right. left. eauto.
  - apply negb_false_iff, orb_true_iff.
    decompose [or ex and] H; try discriminate;
      match goal with E : VNumber _ = VNumber _ |- _ => injection E as -> end;
      auto.
  - apply negb_false_iff, Z.eqb_eq in H. subst z. tauto.
  - apply negb_false_iff, Z.eqb_eq.
    decompose [or ex and] H; congruence.
  - apply negb_false_iff, String.eqb_eq in H. subst s. tauto.
  - apply negb_false_iff, String.eqb_eq.
    decompose [or ex and] H; congruence.
Qed.

(** C5: [getBoolean] never rejects a value.  Whatever the lookup finds, a
    stored value or a fallback, comes back as a boolean: a boolean
    unchanged, any other value by truthiness, false exactly for
    [undefined], [null], the empty string, a zero and NaN.  The call fails
    only when the lookup fails, and over a non-null source that is the
    missing-key ReferenceError alone.  [0] gives false, ["x"] gives true,
    [false] gives false. *)
Theorem getBoolean_never_rejects (this : DataPicker) (key : string)
    (fallback : value) :
  (forall v, get this key fallback = Ok v ->
     getBoolean this key fallback = Ok (ToBoolean v)
     /\ (forall b, v = VBoolean b -> getBoolean this key fallback = Ok b)
     /\ (ToBoolean v = false <-> falsy v))
  /\ (has this key = Ok true -> is_Ok (getBoolean this key fallback) = true)
  /\ (has this key = Ok false -> fallback <> VUndefined ->
      getBoolean this key fallback = Ok (ToBoolean fallback))
  /\ (forall e, getBoolean this key fallback = Throw e ->
        get this key fallback = Throw e
        /\ (structured (data this) ->
            e = Missing_key this key
            /\ has this key = Ok false /\ fallback = VUndefined))
  /\ (forall label,
        getBoolean (mkDataPicker label (singleton "k" (VNumber zero))) "k" fallback
        = Ok false
        /\ getBoolean (mkDataPicker label (singleton "k" (VString "x"))) "k" fallback
           = Ok true
        /\ getBoolean (mkDataPicker label (singleton "k" (VBoolean false))) "k" fallback
           = Ok false).
Proof.
  assert (Hbool : forall v, get this key fallback = Ok v ->
                            getBoolean this key fallback = Ok (ToBoolean v)).
  { intros v Hget. unfold getBoolean. rewrite Hget. now destruct v. }
  split; [|split; [|split; [|split]]].
  - intros v Hget. split; [now apply Hbool|]. split.
    + intros b ->. now rewrite (Hbool _ Hget).
    + apply ToBoolean_false.
  - intros H. now rewrite (Hbool _ (get_present this key fallback H)).
  - intros H Hf. apply Hbool. now rewrite get_absent, is_undefined_false.
  - intros e He.
    destruct (get this key fallback) as [v|e'] eqn:Hget.
    { rewrite (Hbool v eq_refl) in He. discriminate. }
    unfold getBoolean in He. rewrite Hget in He. simpl in He.
    injection He as ->. split; [reflexivity|].
    intros Hdata. destruct (has_total this key Hdata) as [H|H].
    + rewrite get_present in Hget by assumption. discriminate.
    + rewrite get_absent in Hget by assumption.
      destruct (is_undefined fallback) eqn:Hf; [|discriminate].
      injection Hget as <-. auto using is_undefined_true.
  - intros label. unfold getBoolean. rewrite !get_singleton. auto.
Qed.

Lemma getBoolean_never_rejects_witness :
  get (mkDataPicker "flags" (singleton "debug" (VString ""))) "debug"
    (VBoolean true) = Ok (VString "")
  /\ getBoolean (mkDataPicker "flags" (singleton "debug" (VString ""))) "debug"
       (VBoolean true) = Ok false.
Proof.
  split; [reflexivity|].
  exact (proj1 (proj1 (getBoolean_never_rejects
                         (mkDataPicker "flags" (singleton "debug" (VString "")))
                         "debug" (VBoolean true)) (VString "") eq_refl)).
Defined.

(** ** Arrays of objects *)

Section Elements.

Context {host : Host}.

Lemma new_DataPicker_structured (label : string) (v : value) :
  structured v -> new_DataPicker label v = Ok (mkDataPicker label v).
Proof. intros [Htype _]. unfold new_DataPicker. now rewrite Htype. Qed.

Lemma wrap_elements_cons (this : DataPicker) (key : string)
    (all : list value) (item : value) (rest : list value) (i : nat) :
  wrap_elements this key all (item :: rest) i =
    child <- (if not_an_object item
              then Throw (Invalid_value this key "object" (VArray all))
              else new_DataPicker (element_label (name this) key i) item) ;;
    children <- wrap_elements this key all rest (S i) ;;
    Ok (child :: children).
Proof. reflexivity. Qed.

Lemma wrap_elements_structured (this : DataPicker) (key : string)
    (all elems : list value) :
  Forall structured elems ->
  forall i, exists children,
    wrap_elements this key all elems i = Ok children
    /\ List.length children = List.length elems
    /\ forall j item,
         nth_error elems j = Some item ->
         nth_error children j
         = Some (mkDataPicker (element_label (name this) key (i + j)) item).
Proof.
  induction 1 as [|item rest Hitem Hrest IH]; intros i.
  - exists []. repeat split. intros [|j] item; discriminate.
  - destruct (IH (S i)) as [children [Hmap [Hlen Hnth]]].
    apply not_an_object_false in Hitem as Hobject.
    rewrite wrap_elements_cons, Hobject.
    rewrite (new_DataPicker_structured _ _ Hitem). simpl. rewrite Hmap. simpl.
    eexists. split; [reflexivity|]. split; [simpl; congruence|].
    intros [|j] item' Hj; simpl in *.
    + injection Hj as <-. unfold element_label. now rewrite Nat.add_0_r.
    + rewrite (Hnth j item' Hj). now rewrite Nat.add_succ_r.
Qed.

Lemma wrap_elements_unstructured (this : DataPicker) (key : string)
    (all elems : list value) :
  Exists (fun item => ~ structured item) elems ->
  forall i,
    wrap_elements this key all elems i
    = Throw (Invalid_value this key "object" (VArray all)).
Proof.
  induction elems as [|item rest IH]; intros Hbad i.
  - inversion Hbad.
  - rewrite wrap_elements_cons.
    destruct (not_an_object item) eqn:Hitem; [reflexivity|].
    apply not_an_object_false in Hitem.
    rewrite (new_DataPicker_structured _ _ Hitem). simpl.
    inversion Hbad as [? ? Hhead | ? ? Htail]; subst.
    + now elim Hhead.
    + now rewrite (IH Htail).
Qed.

Lemma wrap_elements_throws (this : DataPicker) (key : string)
    (all elems : list value) (e : error) :
  forall i,
    wrap_elements this key all elems i = Throw e ->
    e = Invalid_value this key "object" (VArray all).
Proof.
  induction elems as [|item rest IH]; intros i H.
  - discriminate.
  - rewrite wrap_elements_cons in H.
    destruct (not_an_object item) eqn:Hitem.
    + now injection H as <-.
    + apply not_an_object_false in Hitem.
      rewrite (new_DataPicker_structured _ _ Hitem) in H. simpl in H.
      destruct (wrap_elements this key all rest (S i)) eqn:Hrest;
        [discriminate|].
      injection H as <-. now apply (IH (S i)).
Qed.

Lemma getObjectArray_of_array (this : DataPicker) (key : string)
    (fallback : value) (elems : list value) :
  getArray this key fallback = Ok elems ->
  getObjectArray this key fallback = wrap_elements this key elems elems 0.
Proof. intros H. unfold getObjectArray. now rewrite H. Qed.

End Elements.

(** C6: over an array of non-null structured elements [getObjectArray]
    returns one child accessor per element, in the order of the array, the
    child at position [i] wrapping element [i] under the label
    [parentLabel.key[i]]; one element that is not a non-null structured
    value makes the whole call throw the TypeError. *)
Theorem getObjectArray_wraps_each_element {host : Host} (this : DataPicker)
    (key : string) (fallback : value) (elems : list value) :
  getArray this key fallback = Ok elems ->
  (Forall structured elems ->
   exists children,
     getObjectArray this key fallback = Ok children
     /\ List.length children = List.length elems
     /\ forall i item,
          nth_error elems i = Some item ->
          nth_error children i
          = Some (mkDataPicker (element_label (name this) key i) item))
  /\ (Exists (fun item => ~ structured item) elems ->
      getObjectArray this key fallback
      = Throw (Invalid_value this key "object" (VArray elems))
      /\ is_TypeError (getObjectArray this key fallback) = true).
Proof.
  intros Harray.
  rewrite (getObjectArray_of_array this key fallback elems Harray). split.
  - intros Hall.
    destruct (wrap_elements_structured this key elems elems Hall 0)
      as [children [Hmap [Hlen Hnth]]].
    exists children. repeat split; assumption.
  - intros Hbad. rewrite (wrap_elements_unstructured this key elems elems Hbad).
    split; reflexivity.
Qed.

Lemma getObjectArray_wraps_each_element_witness :
  (getArray (host := reference_host)
     (mkDataPicker "root"
        (singleton "items" (VArray [VObject [("a", VNumber 1%float)]])))
     "items" VUndefined
   = Ok [VObject [("a", VNumber 1%float)]]
   /\ exists children,
        getObjectArray (host := reference_host)
          (mkDataPicker "root"
             (singleton "items" (VArray [VObject [("a", VNumber 1%float)]])))
          "items" VUndefined
        = Ok children
        /\ List.length children = 1%nat
        /\ forall i item,
             nth_error [VObject [("a", VNumber 1%float)]] i = Some item ->
             nth_error children i
             = Some (mkDataPicker (element_label "root" "items" i) item))
  /\ getArray (host := reference_host)
       (mkDataPicker "root"
          (singleton "items"
             (VArray [VObject [("a", VNumber 1%float)]; VString "bad"])))
       "items" VUndefined
     = Ok [VObject [("a", VNumber 1%float)]; VString "bad"]
  /\ getObjectArray (host := reference_host)
       (mkDataPicker "root"
          (singleton "items"
             (VArray [VObject [("a", VNumber 1%float)]; VString "bad"])))
       "items" VUndefined
     = Throw (TypeError
                "Invalid value for items in root (expected object, got: [ { a: 1 }, 'bad' ])").
Proof.
  split; [split; [reflexivity|] | split; [reflexivity|]].
  - apply (proj1 (getObjectArray_wraps_each_element (host := reference_host)
                    (mkDataPicker "root"
                       (singleton "items"
                          (VArray [VObject [("a", VNumber 1%float)]])))
                    "items" VUndefined
                    [VObject [("a", VNumber 1%float)]] eq_refl)).
    constructor; [split; [reflexivity | discriminate] | constructor].
  - apply (proj2 (getObjectArray_wraps_each_element (host := reference_host)
                    (mkDataPicker "root"
                       (singleton "items"
                          (VArray [VObject [("a", VNumber 1%float)];
                                   VString "bad"])))
                    "items" VUndefined
                    [VObject [("a", VNumber 1%float)]; VString "bad"] eq_refl)).
    apply Exists_cons_tl, Exists_cons_hd.
    intros [Htype _]. discriminate Htype.
Defined.

(** ** Error messages *)

Lemma includes_append_r (a t k : string) :
  includes t k = true -> includes (a ++ t) k = true.
Proof.
  intros H. induction a as [|c a IH]; simpl; [exact H|].
  rewrite IH. apply orb_true_r.
Qed.

Lemma includes_refl (k : string) : includes k k = true.
Proof. rewrite <- (append_empty_r k) at 1. apply includes_prefix. Qed.

Ltac find_part :=
  repeat first [ apply includes_prefix
               | apply includes_refl
               | apply includes_append_r ].

Section Messages.

Context {host : Host}.

Lemma Invalid_value_mentions (this : DataPicker) (key expected : string)
    (got : value) :
  mentions (message_of (Invalid_value this key expected got))
    [key; name this; expected; inspect got].
Proof.
  unfold mentions, Invalid_value, message_of.
  repeat constructor; find_part.
Qed.

Lemma Missing_key_mentions (this : DataPicker) (key : string) :
  mentions (message_of (Missing_key this key)) [key; name this].
Proof.
  unfold mentions, Missing_key, message_of.
  repeat constructor; find_part.
Qed.

Lemma get_throws (this : DataPicker) (key : string) (fallback : value)
    (e : error) :
  get this key fallback = Throw e -> getters_throw this key fallback e.
Proof.
  intros H.
  unfold getters_throw, getString, getNumber, getBoolean, getDate,
    getObjectArray, getArray, getObject, getRawObject.
  rewrite H. repeat split; reflexivity.
Qed.

End Messages.

(** C7, as the code has it: over a looked-up value [v], the TypeError of
    [getString], [getDate], [getArray], [getObject] and [getRawObject]
    carries a message that names the key, the label, the expected type and
    the rendering of [v]; that of [getNumber] renders the value after its
    parse step; the TypeError [getObjectArray] throws for an array names
    the key, the label and the expected type ['object'].  The
    ReferenceError of a missing key names the key and the label. *)
Theorem error_messages_name_key_and_label {host : Host} (this : DataPicker)
    (key : string) (fallback : value) :
  (has this key = Ok false ->
   forall e, get this key fallback = Throw e ->
     e = ReferenceError ("Missing key " ++ key ++ " in " ++ name this)
     /\ mentions (message_of e) [key; name this])
  /\ (forall v, get this key fallback = Ok v ->
      (forall e, getString this key fallback = Throw e ->
         is_TypeError (getString this key fallback) = true
         /\ mentions (message_of e) [key; name this; "string"; inspect v])
      /\ (forall e, getNumber this key fallback = Throw e ->
            is_TypeError (getNumber this key fallback) = true
            /\ mentions (message_of e)
                 [key; name this; "number"; inspect (after_parse v)])
      /\ (forall e, getDate this key fallback = Throw e ->
            is_TypeError (getDate this key fallback) = true
            /\ mentions (message_of e) [key; name this; "date"; inspect v])
      /\ (forall e, getArray this key fallback = Throw e ->
            is_TypeError (getArray this key fallback) = true
            /\ mentions (message_of e) [key; name this; "array"; inspect v])
      /\ (forall e, getObject this key fallback = Throw e ->
            is_TypeError (getObject this key fallback) = true
            /\ mentions (message_of e) [key; name this; "object"; inspect v])
      /\ (forall e, getRawObject this key fallback = Throw e ->
            is_TypeError (getRawObject this key fallback) = true
            /\ mentions (message_of e) [key; name this; "object"; inspect v])
      /\ (forall e elems, v = VArray elems ->
            getObjectArray this key fallback = Throw e ->
            is_TypeError (getObjectArray this key fallback) = true
            /\ mentions (message_of e) [key; name this; "object"])).
Proof.
  split.
  - intros Habsent e Hget. rewrite get_absent in Hget by assumption.
    destruct (is_undefined fallback); [|discriminate].
    injection Hget as <-. split; [reflexivity|]. apply Missing_key_mentions.
  - intros v Hget.
    split; [|split; [|split; [|split; [|split; [|split]]]]].
    + unfold getString. rewrite Hget. simpl. intros e He.
      destruct v; try discriminate; injection He as <-;
        (split; [reflexivity | apply Invalid_value_mentions]).
    + rewrite getNumber_after_parse, Hget. simpl. intros e He.
      destruct (after_parse v) as [| |b|x|z|s|d|p|d|l|p];
        try (injection He as <-;
             split; [reflexivity | apply Invalid_value_mentions]).
      destruct (Number.isFinite x); [discriminate|].
      injection He as <-. split; [reflexivity | apply Invalid_value_mentions].
    + unfold getDate. rewrite Hget. simpl. intros e He.
      destruct v; try discriminate;
        repeat match type of He with
               | context [if ?c then _ else _] => destruct c
               end;
        try discriminate; injection He as <-;
        (split; [reflexivity | apply Invalid_value_mentions]).
    + unfold getArray. rewrite Hget. simpl. intros e He.
      destruct v; try discriminate; injection He as <-;
        (split; [reflexivity | apply Invalid_value_mentions]).
    + unfold getObject. rewrite Hget. simpl. intros e He.
      destruct (not_an_object v) eqn:Hv.
      * injection He as <-. split; [reflexivity | apply Invalid_value_mentions].
      * apply not_an_object_false in Hv.
        rewrite (new_DataPicker_structured _ _ Hv) in He. discriminate.
    + unfold getRawObject. rewrite Hget. simpl. intros e He.
      destruct (not_an_object v); [|discriminate].
      injection He as <-. split; [reflexivity | apply Invalid_value_mentions].
    + intros e elems -> He.
      assert (Harray : getArray this key fallback = Ok elems).
      { unfold getArray. now rewrite Hget. }
      rewrite (getObjectArray_of_array this key fallback elems Harray) in *.
      pose proof (wrap_elements_throws _ _ _ _ _ _ He) as ->.
      rewrite He. split; [reflexivity|].
      pose proof (Invalid_value_mentions this key "object" (VArray elems)) as M.
      unfold mentions in *.
      inversion M as [|? ? M1 Mkey]; subst.
      inversion Mkey as [|? ? M2 Mname]; subst.
      inversion Mname as [|? ? M3 Mtype]; subst.
      repeat constructor; assumption.
Qed.

Lemma error_messages_name_key_and_label_witness :
  has (mkDataPicker "config" (VObject [])) "port" = Ok false
  /\ get (mkDataPicker "config" (VObject [])) "port" VUndefined
     = Throw (ReferenceError "Missing key port in config")
  /\ mentions "Missing key port in config" ["port"; "config"].
Proof.
  split; [reflexivity|]. split; [reflexivity|].
  exact (proj2 (proj1 (error_messages_name_key_and_label
                         (host := reference_host)
                         (mkDataPicker "config" (VObject [])) "port" VUndefined)
                  eq_refl (ReferenceError "Missing key port in config") eq_refl)).
Defined.

(** The message of a missing key names neither the type the getter
    expected nor a value: [getString] on a key the source does not own
    throws ["Missing key port in config"], in which ["string"] does not
    occur. *)
Lemma missing_key_message_names_no_type :
  getString (host := reference_host)
    (mkDataPicker "config" (VObject [])) "port" VUndefined
  = Throw (ReferenceError "Missing key port in config")
  /\ ~ mentions "Missing key port in config" ["port"; "config"; "string"].
Proof.
  split; [reflexivity|].
  intros M.
  inversion M as [|? ? _ Mkey]; subst.
  inversion Mkey as [|? ? _ Mname]; subst.
  inversion Mname as [|? ? Mtype _]; subst.
  discriminate Mtype.
Qed.

(** ** Optional getters *)

(** C8: an optional getter answers "absent" ([None]) when the source does
    not own the key, and otherwise is its getter called without a
    fallback: a present value that fails validation makes the optional
    getter throw the same TypeError. *)
Theorem optional_getters_tolerate_absence_only {host : Host}
    (this : DataPicker) (key : string) :
  (has this key = Ok false ->
   getStringOptional this key = Ok None
   /\ getNumberOptional this key = Ok None
   /\ getBooleanOptional this key = Ok None
   /\ getDateOptional this key = Ok None)
  /\ (has this key = Ok true ->
      getStringOptional this key
      = (s <- getString this key VUndefined ;; Ok (Some s))
      /\ getNumberOptional this key
         = (n <- getNumber this key VUndefined ;; Ok (Some n))
      /\ getBooleanOptional this key
         = (b <- getBoolean this key VUndefined ;; Ok (Some b))
      /\ getDateOptional this key
         = (d <- getDate this key VUndefined ;; Ok (Some d)))
  /\ (has this key = Ok true ->
      forall e,
        (getString this key VUndefined = Throw e ->
         getStringOptional this key = Throw e)
        /\ (getNumber this key VUndefined = Throw e ->
            getNumberOptional this key = Throw e)
        /\ (getBoolean this key VUndefined = Throw e ->
            getBooleanOptional this key = Throw e)
        /\ (getDate this key VUndefined = Throw e ->
            getDateOptional this key = Throw e))
  /\ (forall label,
        getStringOptional (mkDataPicker label (singleton key (VNumber 5%float))) key
        = Throw (Invalid_value (mkDataPicker label (singleton key (VNumber 5%float)))
                   key "string" (VNumber 5%float))
        /\ getNumberOptional (mkDataPicker label (singleton key (VString "abc"))) key
           = Throw (Invalid_value (mkDataPicker label (singleton key (VString "abc")))
                      key "number" (VNumber nan))
        /\ getDateOptional (mkDataPicker label (singleton key (VNumber zero))) key
           = Throw (Invalid_value (mkDataPicker label (singleton key (VNumber zero)))
                      key "date" (VNumber zero))).
Proof.
  unfold getStringOptional, getNumberOptional, getBooleanOptional,
    getDateOptional.
  split; [|split; [|split]].
  - intros ->. repeat split; reflexivity.
  - intros ->. repeat split; reflexivity.
  - intros -> e. simpl. repeat split; intros ->; reflexivity.
  - intros label. rewrite !has_singleton. simpl.
    unfold getString, getNumber, getDate. rewrite !get_singleton.
    repeat split; reflexivity.
Qed.

Lemma optional_getters_tolerate_absence_only_witness :
  has (mkDataPicker "process.env" (singleton "PORT" (VString "http"))) "HOST"
  = Ok false
  /\ getNumberOptional (host := reference_host)
       (mkDataPicker "process.env" (singleton "PORT" (VString "http"))) "HOST"
     = Ok None
  /\ has (mkDataPicker "process.env" (singleton "PORT" (VString "http"))) "PORT"
     = Ok true
  /\ getNumberOptional (host := reference_host)
       (mkDataPicker "process.env" (singleton "PORT" (VString "http"))) "PORT"
     = Throw (TypeError
                "Invalid value for PORT in process.env (expected number, got: NaN)").
Proof.
  split; [reflexivity|]. split.
  - exact (proj1 (proj2 (proj1 (optional_getters_tolerate_absence_only
             (host := reference_host)
             (mkDataPicker "process.env" (singleton "PORT" (VString "http")))
             "HOST") eq_refl))).
  - split; [reflexivity|].
    exact (proj1 (proj2 (proj1 (proj2 (proj2
             (optional_getters_tolerate_absence_only
                (host := reference_host)
                (mkDataPicker "process.env" (singleton "PORT" (VString "http")))
                "PORT"))) eq_refl
             (TypeError
                "Invalid value for PORT in process.env (expected number, got: NaN)")))
             eq_refl).
Defined.

(** ** Fallbacks *)

(** C9: on a key the source does not own, a fallback [F] goes through each
    getter exactly as a value stored under that key would: all eight
    getters give the outcome they give on the source that holds [F] under
    the key.  So [getNumber] with the fallback ["5"] returns the number 5,
    and a fallback that fails the validation of the getter throws its
    TypeError. *)
Theorem fallback_is_processed_like_a_stored_value {host : Host}
    (this : DataPicker) (key : string) (F : value) :
  has this key = Ok false ->
  F <> VUndefined ->
  getters_agree this (mkDataPicker (name this) (singleton key F)) key
    F VUndefined
  /\ (F = VString "5" -> getNumber this key F = Ok 5%float)
  /\ (F = VString "abc" ->
      getNumber this key F
      = Throw (Invalid_value this key "number" (VNumber nan)))
  /\ (Number_isFinite (after_parse F) = false ->
      getNumber this key F
      = Throw (Invalid_value this key "number" (after_parse F)))
  /\ (typeof F <> "string" ->
      getString this key F = Throw (Invalid_value this key "string" F))
  /\ (Array_isArray F = false ->
      getArray this key F = Throw (Invalid_value this key "array" F))
  /\ (~ structured F ->
      getObject this key F = Throw (Invalid_value this key "object" F)
      /\ getRawObject this key F = Throw (Invalid_value this key "object" F)).
Proof.
  intros Habsent HF.
  assert (Hget : get this key F = Ok F).
  { now rewrite get_absent, is_undefined_false. }
  split; [|split; [|split; [|split; [|split; [|split]]]]].
  - apply getters_agree_of_get; [reflexivity|].
    now rewrite Hget, get_singleton.
  - intros ->. unfold getNumber. now rewrite Hget.
  - intros ->. unfold getNumber. now rewrite Hget.
  - intros Hbad. rewrite getNumber_after_parse, Hget. simpl.
    destruct (after_parse F); simpl in *; try reflexivity.
    now rewrite Hbad.
  - intros Htype. unfold getString. rewrite Hget. simpl.
    destruct F; simpl in *; congruence.
  - intros Harray. unfold getArray. rewrite Hget. simpl.
    destruct F; simpl in *; congruence.
  - intros Hbad. apply not_an_object_true in Hbad.
    unfold getObject, getRawObject. rewrite Hget. simpl. rewrite Hbad. auto.
Qed.

Lemma fallback_is_processed_like_a_stored_value_witness :
  has (mkDataPicker "process.env" (VObject [])) "PORT" = Ok false
  /\ VString "5" <> VUndefined
  /\ getNumber (host := reference_host)
       (mkDataPicker "process.env" (VObject [])) "PORT" (VString "5")
     = Ok 5%float.
Proof.
  split; [reflexivity|]. split; [discriminate|].
  apply (proj1 (proj2 (fallback_is_processed_like_a_stored_value
                         (host := reference_host)
                         (mkDataPicker "process.env" (VObject [])) "PORT"
                         (VString "5") eq_refl
                         ltac:(discriminate)))).
  reflexivity.
Defined.

(** C10: an argument [undefined] for the fallback is the same call as no
    argument.  On a key the source does not own both throw the
    missing-key ReferenceError, in [get] and in all eight getters, so no
    fallback argument makes the lookup deliver [undefined]; a key the
    source owns with the value [undefined] still delivers it. *)
Theorem undefined_fallback_is_no_fallback {host : Host} (this : DataPicker)
    (key : string) :
  get this key (parameter (Some VUndefined)) = get this key (parameter None)
  /\ getters_agree this this key (parameter (Some VUndefined)) (parameter None)
  /\ (has this key = Ok false ->
      get this key (parameter (Some VUndefined)) = Throw (Missing_key this key)
      /\ getters_throw this key (parameter (Some VUndefined))
           (Missing_key this key)
      /\ getters_throw this key (parameter None) (Missing_key this key))
  /\ (has this key = Ok false ->
      forall argument, get this key (parameter argument) <> Ok VUndefined)
  /\ (forall argument,
        get (mkDataPicker (name this) (singleton key VUndefined)) key
          (parameter argument)
        = Ok VUndefined).
Proof.
  split; [reflexivity|]. split; [|split; [|split]].
  - apply getters_agree_of_get; reflexivity.
  - intros Habsent.
    assert (Hget : get this key VUndefined = Throw (Missing_key this key)).
    { now rewrite get_absent. }
    split; [exact Hget|]. split; apply get_throws; exact Hget.
  - intros Habsent argument. rewrite get_absent by assumption.
    destruct (parameter argument); simpl; discriminate.
  - intros argument. apply get_singleton.
Qed.

Lemma undefined_fallback_is_no_fallback_witness :
  has (mkDataPicker "process.env" (VObject [])) "PORT" = Ok false
  /\ getString (host := reference_host)
       (mkDataPicker "process.env" (VObject [])) "PORT"
       (parameter (Some VUndefined))
     = Throw (ReferenceError "Missing key PORT in process.env").
Proof.
  split; [reflexivity|].
  exact (proj1 (proj1 (proj2 (proj1 (proj2 (proj2
           (undefined_fallback_is_no_fallback (host := reference_host)
              (mkDataPicker "process.env" (VObject [])) "PORT"))) eq_refl)))).
Defined.

(** * Further properties of the class *)

(** ** What a lookup can be *)

Section Outcomes.

Context {host : Host}.

Lemma has_throws (this : DataPicker) (key : string) (e : error) :
  has this key = Throw e ->
  e = TypeError "Cannot convert undefined or null to object".
Proof.
  unfold has, hasOwnProperty.
  destruct (data this); intros H; try discriminate; now injection H as <-.
Qed.

Lemma get_ok_inv (this : DataPicker) (key : string) (fallback v : value) :
  get this key fallback = Ok v ->
  (has this key = Ok true /\ own_property (data this) key = Some v)
  \/ (has this key = Ok false /\ fallback = v /\ v <> VUndefined).
Proof.
  unfold get. destruct (has this key) as [[|]|e] eqn:Hhas; simpl.
  - intros [= <-]. left. split; [reflexivity|].
    destruct (has_true this key Hhas) as [stored [Hown <-]]. exact Hown.
  - destruct fallback; simpl; intros [= <-]; right;
      (split; [reflexivity | split; [reflexivity | discriminate]]).
  - discriminate.
Qed.

Lemma get_throw_inv (this : DataPicker) (key : string) (fallback : value)
    (e : error) :
  get this key fallback = Throw e ->
  (has this key = Throw e
   /\ e = TypeError "Cannot convert undefined or null to object")
  \/ (has this key = Ok false /\ fallback = VUndefined
      /\ e = Missing_key this key).
Proof.
  unfold get. destruct (has this key) as [[|]|e'] eqn:Hhas; simpl.
  - discriminate.
  - destruct (is_undefined fallback) eqn:Hf; simpl; [|discriminate].
    intros [= <-]. right. auto using is_undefined_true.
  - intros [= <-]. left. split; [reflexivity|]. exact (has_throws _ _ _ Hhas).
Qed.

Lemma own_property_has (this : DataPicker) (key : string) (v : value) :
  own_property (data this) key = Some v -> has this key = Ok true.
Proof.
  unfold has, hasOwnProperty. intros H.
  destruct (data this); try discriminate; now rewrite H.
Qed.

End Outcomes.

(** X1: [get] called without a fallback succeeds exactly on the keys the
    source owns, and then returns the own property: the lookup and [has]
    never disagree. *)
Theorem get_without_fallback_succeeds_iff_owned (this : DataPicker)
    (key : string) :
  (is_Ok (get this key VUndefined) = true <-> has this key = Ok true)
  /\ (forall v, get this key VUndefined = Ok v
                <-> own_property (data this) key = Some v).
Proof.
  split.
  - split.
    + destruct (get this key VUndefined) as [v|e] eqn:Hget; [|discriminate].
      intros _. destruct (get_ok_inv _ _ _ _ Hget) as [[H _]|[_ [<- Hv]]];
        [exact H | now elim Hv].
    + intros H. now rewrite get_present.
  - intros v. split.
    + intros Hget. destruct (get_ok_inv _ _ _ _ Hget) as [[_ H]|[_ [<- Hv]]];
        [exact H | now elim Hv].
    + intros Hown. rewrite get_present by exact (own_property_has _ _ _ Hown).
      unfold member. now rewrite Hown.
Qed.

(** X2: a ReferenceError from any getter means one thing: the source does
    not own the key and the call gave no fallback; its message is the
    missing-key message. *)
Theorem ReferenceError_means_missing_key {host : Host} (this : DataPicker)
    (key : string) (fallback : value) (m : string) :
  getString this key fallback = Throw (ReferenceError m)
  \/ getNumber this key fallback = Throw (ReferenceError m)
  \/ getBoolean this key fallback = Throw (ReferenceError m)
  \/ getDate this key fallback = Throw (ReferenceError m)
  \/ getArray this key fallback = Throw (ReferenceError m)
  \/ getObjectArray this key fallback = Throw (ReferenceError m)
  \/ getObject this key fallback = Throw (ReferenceError m)
  \/ getRawObject this key fallback = Throw (ReferenceError m) ->
  has this key = Ok false
  /\ fallback = VUndefined
  /\ m = "Missing key " ++ key ++ " in " ++ name this.
Proof.
  intros H.
  assert (Hget : get this key fallback = Throw (ReferenceError m)).
  { destruct (get this key fallback) as [v|e] eqn:Hget.
    - exfalso.
      unfold getString, getNumber, getBoolean, getDate, getObjectArray,
        getArray, getObject, getRawObject, new_DataPicker in H.
      rewrite Hget in H. simpl in H.
      destruct H as [H|[H|[H|[H|[H|[H|[H|H]]]]]]].
      + destruct v; discriminate.
      + destruct v; try discriminate;
          repeat match type of H with
                 | context [if ?c then _ else _] => destruct c
                 end; discriminate.
      + destruct v; discriminate.
      + destruct v; try discriminate;
          repeat match type of H with
                 | context [if ?c then _ else _] => destruct c
                 end; discriminate.
      + destruct v; discriminate.
      + destruct v; try discriminate. simpl in H.
        apply (wrap_elements_throws this key elems elems _ 0) in H.
        discriminate.
      + repeat match type of H with
               | context [if ?c then _ else _] => destruct c
               end; discriminate.
      + destruct (not_an_object v); discriminate.
    - destruct (get_throws this key fallback e Hget)
        as [H1 [H2 [H3 [H4 [H5 [H6 [H7 H8]]]]]]].
      destruct H as [H|[H|[H|[H|[H|[H|[H|H]]]]]]]; congruence. }
  destruct (get_throw_inv _ _ _ _ Hget) as [[_ He]|[Hhas [Hf He]]];
    [discriminate|].
  injection He as ->.
  split; [exact Hhas|]. split; [exact Hf|]. reflexivity.
Qed.

Lemma ReferenceError_means_missing_key_witness :
  getNumber (host := reference_host)
    (mkDataPicker "process.env" (VObject [])) "PORT" VUndefined
  = Throw (ReferenceError "Missing key PORT in process.env")
  /\ has (mkDataPicker "process.env" (VObject [])) "PORT" = Ok false.
Proof.
  split; [reflexivity|].
  exact (proj1 (ReferenceError_means_missing_key (host := reference_host)
                  (mkDataPicker "process.env" (VObject [])) "PORT" VUndefined
                  "Missing key PORT in process.env"
                  (or_intror (or_introl eq_refl)))).
Defined.

(** ** Optional getters *)

Section Optional.

Context {host : Host}.

(** On a key the source owns, the fallback plays no part in any getter. *)
Lemma present_ignores_fallback (this : DataPicker) (key : string)
    (fallback fallback' : value) :
  has this key = Ok true ->
  getters_agree this this key fallback fallback'.
Proof.
  intros H. apply getters_agree_of_get; [reflexivity|].
  now rewrite !get_present.
Qed.

Lemma present_getter_throws_TypeError (this : DataPicker) (key : string) :
  has this key = Ok true ->
  is_ReferenceError (getString this key VUndefined) = false
  /\ is_ReferenceError (getNumber this key VUndefined) = false
  /\ is_ReferenceError (getBoolean this key VUndefined) = false
  /\ is_ReferenceError (getDate this key VUndefined) = false.
Proof.
  intros H.
  unfold getString, getNumber, getBoolean, getDate.
  rewrite (get_present this key VUndefined H). simpl.
  destruct (member (data this) key); simpl; repeat split;
    repeat match goal with
           | |- context [if ?c then _ else _] => destruct c
           end; reflexivity.
Qed.

End Optional.

(** X3: an optional getter never throws a ReferenceError: a key the
    source does not own is answered by [None], never by the missing-key
    error. *)
Theorem optional_getters_never_throw_ReferenceError {host : Host}
    (this : DataPicker) (key : string) :
  is_ReferenceError (getStringOptional this key) = false
  /\ is_ReferenceError (getNumberOptional this key) = false
  /\ is_ReferenceError (getBooleanOptional this key) = false
  /\ is_ReferenceError (getDateOptional this key) = false.
Proof.
  unfold getStringOptional, getNumberOptional, getBooleanOptional,
    getDateOptional.
  destruct (has this key) as [[|]|e] eqn:Hhas; simpl.
  - destruct (present_getter_throws_TypeError this key Hhas)
      as [Hs [Hn [Hb Hd]]].
    repeat split;
      match goal with
      | |- context [bind ?r _] => destruct r as [?|[?|?]]
      end; simpl in *; congruence.
  - repeat split; reflexivity.
  - rewrite (has_throws this key e Hhas). repeat split; reflexivity.
Qed.

(** X4: an optional getter answers [None] exactly when the source does
    not own the key.  A key owned with the value [undefined] or [null] is
    not absent: it goes to the getter. *)
Theorem optional_None_iff_absent {host : Host} (this : DataPicker)
    (key : string) :
  (getStringOptional this key = Ok None <-> has this key = Ok false)
  /\ (getNumberOptional this key = Ok None <-> has this key = Ok false)
  /\ (getBooleanOptional this key = Ok None <-> has this key = Ok false)
  /\ (getDateOptional this key = Ok None <-> has this key = Ok false).
Proof.
  unfold getStringOptional, getNumberOptional, getBooleanOptional,
    getDateOptional.
  destruct (has this key) as [[|]|e]; simpl; repeat split;
    try discriminate; try reflexivity;
    match goal with
    | |- context [bind ?r _] => destruct r
    end; discriminate.
Qed.

(** X5: when an optional getter returns a value, the getter returns the
    same value under every fallback: on an owned key the fallback is never
    looked at. *)
Theorem optional_Some_is_getter_with_any_fallback {host : Host}
    (this : DataPicker) (key : string) (fallback : value) :
  (forall s, getStringOptional this key = Ok (Some s) ->
             getString this key fallback = Ok s)
  /\ (forall n, getNumberOptional this key = Ok (Some n) ->
                getNumber this key fallback = Ok n)
  /\ (forall b, getBooleanOptional this key = Ok (Some b) ->
                getBoolean this key fallback = Ok b)
  /\ (forall d, getDateOptional this key = Ok (Some d) ->
                getDate this key fallback = Ok d).
Proof.
  unfold getStringOptional, getNumberOptional, getBooleanOptional,
    getDateOptional.
  destruct (has this key) as [[|]|e] eqn:Hhas; simpl;
    try (repeat split; intros; discriminate).
  destruct (present_ignores_fallback this key fallback VUndefined Hhas)
    as [Hs [Hn [Hb [Hd _]]]].
  rewrite Hs, Hn, Hb, Hd.
  repeat split; intros x H;
    match type of H with
    | context [bind ?r _] => destruct r
    end; simpl in H; congruence.
Qed.

Lemma optional_Some_is_getter_with_any_fallback_witness :
  getNumberOptional (host := reference_host)
    (mkDataPicker "process.env" (singleton "PORT" (VString "8080"))) "PORT"
  = Ok (Some 8080%float)
  /\ getNumber (host := reference_host)
       (mkDataPicker "process.env" (singleton "PORT" (VString "8080"))) "PORT"
       (VNumber 3000%float)
     = Ok 8080%float.
Proof.
  split; [reflexivity|].
  exact (proj1 (proj2 (optional_Some_is_getter_with_any_fallback
                         (host := reference_host)
                         (mkDataPicker "process.env"
                            (singleton "PORT" (VString "8080")))
                         "PORT" (VNumber 3000%float)))
           8080%float eq_refl).
Defined.

(** X6: over a non-null source [getBooleanOptional] never throws: it
    answers [None] for a key the source does not own and the truthiness of
    the stored value for one it owns. *)
Theorem getBooleanOptional_never_throws (this : DataPicker) (key : string) :
  structured (data this) ->
  (has this key = Ok false /\ getBooleanOptional this key = Ok None)
  \/ (exists stored,
        own_property (data this) key = Some stored
        /\ getBooleanOptional this key = Ok (Some (ToBoolean stored))).
Proof.
  intros Hdata. unfold getBooleanOptional, getBoolean.
  destruct (has_total this key Hdata) as [H|H].
  - right. destruct (has_true this key H) as [stored [Hown Hmem]].
    exists stored. split; [exact Hown|].
    rewrite H, (get_present this key VUndefined H), Hmem. simpl.
    now destruct stored.
  - left. split; [exact H|]. now rewrite H.
Qed.

Lemma getBooleanOptional_never_throws_witness :
  structured (singleton "debug" (VString "0"))
  /\ getBooleanOptional (mkDataPicker "flags" (singleton "debug" (VString "0")))
       "debug" = Ok (Some true)
  /\ getBooleanOptional (mkDataPicker "flags" (singleton "debug" (VString "0")))
       "trace" = Ok None.
Proof.
  assert (Hdata : structured (singleton "debug" (VString "0"))).
  { split; [reflexivity | discriminate]. }
  split; [exact Hdata|]. split.
  - destruct (getBooleanOptional_never_throws
                (mkDataPicker "flags" (singleton "debug" (VString "0")))
                "debug" Hdata) as [[Habsent _]|[stored [Hown Hget]]].
    + discriminate Habsent.
    + injection Hown as <-. exact Hget.
  - destruct (getBooleanOptional_never_throws
                (mkDataPicker "flags" (singleton "debug" (VString "0")))
                "trace" Hdata) as [[_ Hnone]|[stored [Hown _]]].
    + exact Hnone.
    + discriminate Hown.
Defined.

(** ** Values that are returned as they are *)

(** X7: [getString], [getArray] and [getRawObject] never convert: each
    succeeds exactly when the lookup yields a value of its type, and
    returns that very value.  A number is not turned into a string, a
    string is not split into an array. *)
Theorem getters_return_the_looked_up_value {host : Host} (this : DataPicker)
    (key : string) (fallback : value) :
  (forall s, getString this key fallback = Ok s
             <-> get this key fallback = Ok (VString s))
  /\ (forall elems, getArray this key fallback = Ok elems
                    <-> get this key fallback = Ok (VArray elems))
  /\ (forall v, getRawObject this key fallback = Ok v
                <-> get this key fallback = Ok v /\ structured v).
Proof.
  unfold getString, getArray, getRawObject.
  destruct (get this key fallback) as [v|e]; simpl.
  - split; [|split].
    + intros s. destruct v; split; intros H; try discriminate; congruence.
    + intros l. destruct v; split; intros H; try discriminate; congruence.
    + intros w. destruct (not_an_object v) eqn:Hv; split.
      * discriminate.
      * intros [[= <-] Hs]. apply not_an_object_false in Hs. congruence.
      * intros [= <-]. split; [reflexivity | now apply not_an_object_false].
      * intros [[= <-] _]. reflexivity.
  - repeat split; try discriminate; intros [? _]; discriminate.
Qed.

(** ** Nested accessors *)

(** X8: [getRawObject] is [getObject] followed by [raw]: the two getters
    succeed on the same lookups, fail with the same error, and the child
    accessor wraps exactly the value [getRawObject] returns. *)
Theorem getRawObject_is_raw_of_getObject {host : Host} (this : DataPicker)
    (key : string) (fallback : value) :
  getRawObject this key fallback
  = (child <- getObject this key fallback ;; Ok (raw child)).
Proof.
  unfold getRawObject, getObject.
  destruct (get this key fallback) as [v|e]; simpl; [|reflexivity].
  destruct (not_an_object v) eqn:Hv; [reflexivity|].
  apply not_an_object_false in Hv.
  now rewrite (new_DataPicker_structured _ _ Hv).
Qed.

Lemma append_assoc (a b c : string) : (a ++ b) ++ c = a ++ b ++ c.
Proof. induction a; simpl; congruence. Qed.

(** X9: the child [getObject] returns is labelled [parentLabel.key] and
    wraps the looked-up value, which is a non-null object.  Labels
    accumulate: a grandchild is labelled [parentLabel.key.key'], and a key
    missing in the child is reported under the child's label. *)
Theorem getObject_child {host : Host} (this : DataPicker) (key : string)
    (fallback : value) (child : DataPicker) :
  getObject this key fallback = Ok child ->
  name child = name this ++ "." ++ key
  /\ get this key fallback = Ok (raw child)
  /\ structured (raw child)
  /\ (forall key' fallback' grandchild,
        getObject child key' fallback' = Ok grandchild ->
        name grandchild = name this ++ "." ++ key ++ "." ++ key')
  /\ (forall key',
        has child key' = Ok false ->
        getString child key' VUndefined
        = Throw (ReferenceError
                   ("Missing key " ++ key' ++ " in " ++ name this ++ "." ++ key))).
Proof.
  assert (Hinv : forall (p c : DataPicker) k f,
             getObject p k f = Ok c ->
             name c = name p ++ "." ++ k
             /\ get p k f = Ok (raw c) /\ structured (raw c)).
  { intros p c k f. unfold getObject.
    destruct (get p k f) as [v|e]; simpl; [|discriminate].
    destruct (not_an_object v) eqn:Hv; [discriminate|].
    apply not_an_object_false in Hv.
    rewrite (new_DataPicker_structured _ _ Hv). intros [= <-]. auto. }
  intros H. destruct (Hinv _ _ _ _ H) as [Hname [Hget Hdata]].
  split; [exact Hname|]. split; [exact Hget|]. split; [exact Hdata|]. split.
  - intros key' fallback' grandchild H'.
    destruct (Hinv _ _ _ _ H') as [Hname' _].
    rewrite Hname', Hname, !append_assoc. reflexivity.
  - intros key' Habsent. unfold getString.
    rewrite get_absent by exact Habsent. simpl.
    unfold Missing_key. now rewrite Hname.
Qed.

Lemma getObject_child_witness :
  getObject (host := reference_host)
    (mkDataPicker "root"
       (singleton "child" (VObject [("x", VNumber 1%float)])))
    "child" VUndefined
  = Ok (mkDataPicker "root.child" (VObject [("x", VNumber 1%float)]))
  /\ getString (host := reference_host)
       (mkDataPicker "root.child" (VObject [("x", VNumber 1%float)]))
       "y" VUndefined
     = Throw (ReferenceError "Missing key y in root.child").
Proof.
  split; [reflexivity|].
  exact (proj2 (proj2 (proj2 (proj2
           (getObject_child (host := reference_host)
              (mkDataPicker "root"
                 (singleton "child" (VObject [("x", VNumber 1%float)])))
              "child" VUndefined
              (mkDataPicker "root.child" (VObject [("x", VNumber 1%float)]))
              eq_refl)))) "y" eq_refl).
Defined.

(** X10: [getObject] and [getRawObject] take an array or a [Date] for an
    object, since [typeof] answers ['object'] for both: every value
    [getArray] accepts, [getObject] accepts too, and the accessor around
    an array owns its [length]. *)
Theorem getObject_accepts_arrays_and_dates {host : Host} (this : DataPicker)
    (key : string) (fallback v : value) :
  get this key fallback = Ok v ->
  Array_isArray v = true \/ instanceof_Date v = true ->
  getObject this key fallback = Ok (mkDataPicker (name this ++ "." ++ key) v)
  /\ getRawObject this key fallback = Ok v
  /\ (forall elems fallback',
        v = VArray elems ->
        getArray this key fallback = Ok elems
        /\ get (mkDataPicker (name this ++ "." ++ key) v) "length" fallback'
           = Ok (VNumber (Number.of_nat (List.length elems)))).
Proof.
  intros Hget Hv. unfold getObject, getRawObject, getArray. rewrite Hget. simpl.
  destruct v; simpl in Hv; destruct Hv as [Hv|Hv]; try discriminate;
    (split; [reflexivity|]; split; [reflexivity|]);
    intros l fallback' E; try discriminate.
  injection E as <-. split; reflexivity.
Qed.

Lemma getObject_accepts_arrays_and_dates_witness :
  get (mkDataPicker "root" (singleton "tags" (VArray [VString "a"; VString "b"])))
    "tags" VUndefined
  = Ok (VArray [VString "a"; VString "b"])
  /\ getObject (host := reference_host)
       (mkDataPicker "root" (singleton "tags" (VArray [VString "a"; VString "b"])))
       "tags" VUndefined
     = Ok (mkDataPicker "root.tags" (VArray [VString "a"; VString "b"]))
  /\ get (mkDataPicker "root.tags" (VArray [VString "a"; VString "b"]))
       "length" VUndefined
     = Ok (VNumber 2%float).
Proof.
  split; [reflexivity|].
  destruct (getObject_accepts_arrays_and_dates (host := reference_host)
              (mkDataPicker "root"
                 (singleton "tags" (VArray [VString "a"; VString "b"])))
              "tags" VUndefined (VArray [VString "a"; VString "b"])
              eq_refl (or_introl eq_refl)) as [Hobject [_ Harray]].
  split; [exact Hobject|].
  exact (proj2 (Harray [VString "a"; VString "b"] VUndefined eq_refl)).
Defined.

(** ** Arrays of objects, read back *)

Lemma length_append (a b : string) :
  String.length (a ++ b) = (String.length a + String.length b)%nat.
Proof. induction a; simpl; congruence. Qed.

Lemma append_inj_l (a x y : string) : a ++ x = a ++ y -> x = y.
Proof. induction a; simpl; intros H; [exact H | injection H; auto]. Qed.

Lemma append_inj_r (c x y : string) : x ++ c = y ++ c -> x = y.
Proof.
  revert y. induction x as [|a x IH]; intros [|b y] H; simpl in H.
  - reflexivity.
  - apply (f_equal String.length) in H. simpl in H.
    rewrite length_append in H. lia.
  - apply (f_equal String.length) in H. simpl in H.
    rewrite length_append in H. lia.
  - injection H as -> H. f_equal. now apply IH.
Qed.

Lemma string_of_nat_inj (i j : nat) : string_of_nat i = string_of_nat j -> i = j.
Proof.
  unfold string_of_nat. intros H.
  apply (f_equal NilEmpty.uint_of_string) in H.
  rewrite !NilEmpty.usu in H. injection H as H.
  now apply DecimalNat.Unsigned.to_uint_inj.
Qed.

Lemma element_label_inj (parent key : string) (i j : nat) :
  element_label parent key i = element_label parent key j -> i = j.
Proof.
  unfold element_label. intros H.
  do 4 apply append_inj_l in H.
  now apply append_inj_r, string_of_nat_inj in H.
Qed.

Lemma wrap_elements_ok {host : Host} (this : DataPicker) (key : string)
    (all : list value) :
  forall elems i children,
    wrap_elements this key all elems i = Ok children ->
    map raw children = elems
    /\ Forall structured elems
    /\ forall j child,
         nth_error children j = Some child ->
         name child = element_label (name this) key (i + j).
Proof.
  induction elems as [|item rest IH]; intros i children H.
  - injection H as <-. repeat split; [constructor|].
    intros [|j] child; discriminate.
  - rewrite wrap_elements_cons in H.
    destruct (not_an_object item) eqn:Hitem; [discriminate|].
    apply not_an_object_false in Hitem.
    rewrite (new_DataPicker_structured _ _ Hitem) in H. simpl in H.
    destruct (wrap_elements this key all rest (S i)) as [tail|e] eqn:Hrest;
      [|discriminate].
    injection H as <-.
    destruct (IH (S i) tail Hrest) as [Hraw [Hall Hnames]].
    split; [simpl; now rewrite Hraw|]. split; [now constructor|].
    intros [|j] child Hj; simpl in Hj.
    + injection Hj as <-. simpl. now rewrite Nat.add_0_r.
    + rewrite (Hnames j child Hj). now rewrite Nat.add_succ_r.
Qed.

(** X11: what [getObjectArray] returns reads back as the array: the
    values the children wrap are, in order, the elements [getArray]
    returns, each a non-null object, and child [i] carries the label
    [parentLabel.key[i]].  An empty array gives no children. *)
Theorem getObjectArray_children {host : Host} (this : DataPicker)
    (key : string) (fallback : value) (children : list DataPicker) :
  getObjectArray this key fallback = Ok children ->
  getArray this key fallback = Ok (map raw children)
  /\ Forall structured (map raw children)
  /\ (forall i child,
        nth_error children i = Some child ->
        name child = element_label (name this) key i)
  /\ (children = [] <-> getArray this key fallback = Ok []).
Proof.
  intros H.
  destruct (getArray this key fallback) as [elems|e] eqn:Harray.
  - rewrite (getObjectArray_of_array this key fallback elems Harray) in H.
    destruct (wrap_elements_ok this key elems elems 0 children H)
      as [Hraw [Hall Hnames]].
    rewrite Hraw. split; [reflexivity|]. split; [exact Hall|].
    split; [exact Hnames|].
    split.
    + intros ->. simpl in Hraw. now rewrite <- Hraw.
    + intros [= ->]. now destruct children.
  - unfold getObjectArray in H. rewrite Harray in H. discriminate.
Qed.

Lemma getObjectArray_children_witness :
  getObjectArray (host := reference_host)
    (mkDataPicker "root"
       (singleton "items" (VArray [VObject [("a", VNumber 1%float)]; VArray []])))
    "items" VUndefined
  = Ok [mkDataPicker "root.items[0]" (VObject [("a", VNumber 1%float)]);
        mkDataPicker "root.items[1]" (VArray [])]
  /\ getArray (host := reference_host)
       (mkDataPicker "root"
          (singleton "items"
             (VArray [VObject [("a", VNumber 1%float)]; VArray []])))
       "items" VUndefined
     = Ok [VObject [("a", VNumber 1%float)]; VArray []].
Proof.
  split; [reflexivity|].
  exact (proj1 (getObjectArray_children (host := reference_host)
                  (mkDataPicker "root"
                     (singleton "items"
                        (VArray [VObject [("a", VNumber 1%float)]; VArray []])))
                  "items" VUndefined
                  [mkDataPicker "root.items[0]" (VObject [("a", VNumber 1%float)]);
                   mkDataPicker "root.items[1]" (VArray [])]
                  eq_refl)).
Defined.

(** X12: the children of one [getObjectArray] call carry pairwise
    different labels, so a diagnostic names one element of the array. *)
Theorem getObjectArray_labels_are_distinct {host : Host} (this : DataPicker)
    (key : string) (fallback : value) (children : list DataPicker) :
  getObjectArray this key fallback = Ok children ->
  NoDup (map name children).
Proof.
  intros H.
  assert (Hnames : forall i child,
             nth_error children i = Some child ->
             name child = element_label (name this) key i).
  { destruct (getArray this key fallback) as [elems|e] eqn:Harray.
    - rewrite (getObjectArray_of_array this key fallback elems Harray) in H.
      exact (proj2 (proj2 (wrap_elements_ok this key elems elems 0 children H))).
    - unfold getObjectArray in H. rewrite Harray in H. discriminate. }
  apply NoDup_nth_error. intros i j Hi Heq.
  rewrite length_map in Hi.
  destruct (nth_error children i) as [ci|] eqn:Hci;
    [|apply nth_error_None in Hci; lia].
  rewrite !nth_error_map, Hci in Heq. simpl in Heq.
  destruct (nth_error children j) as [cj|] eqn:Hcj; [|discriminate].
  simpl in Heq. injection Heq as Heq.
  rewrite (Hnames i ci Hci), (Hnames j cj Hcj) in Heq.
  exact (element_label_inj _ _ _ _ Heq).
Qed.

Lemma getObjectArray_labels_are_distinct_witness :
  getObjectArray (host := reference_host)
    (mkDataPicker "root" (singleton "items" (VArray [VObject []; VObject []])))
    "items" VUndefined
  = Ok [mkDataPicker "root.items[0]" (VObject []);
        mkDataPicker "root.items[1]" (VObject [])]
  /\ NoDup ["root.items[0]"; "root.items[1]"].
Proof.
  split; [reflexivity|].
  exact (getObjectArray_labels_are_distinct (host := reference_host)
           (mkDataPicker "root"
              (singleton "items" (VArray [VObject []; VObject []])))
           "items" VUndefined
           [mkDataPicker "root.items[0]" (VObject []);
            mkDataPicker "root.items[1]" (VObject [])]
           eq_refl).
Defined.

(** ** Numbers and dates that come back *)

(** X13: a number [getNumber] or [getNumberOptional] returns is finite,
    never NaN and never an infinity; and a stored finite number comes back
    as it is. *)
Theorem getNumber_result_is_finite {host : Host} (this : DataPicker)
    (key : string) (fallback : value) :
  (forall n, getNumber this key fallback = Ok n -> Number.isFinite n = true)
  /\ (forall n, getNumberOptional this key = Ok (Some n) ->
                Number.isFinite n = true)
  /\ (forall n, get this key fallback = Ok (VNumber n) ->
                Number.isFinite n = true ->
                getNumber this key fallback = Ok n).
Proof.
  assert (Hfinite : forall f n, getNumber this key f = Ok n ->
                                Number.isFinite n = true).
  { intros f n. rewrite getNumber_after_parse.
    destruct (get this key f) as [v|e]; simpl; [|discriminate].
    destruct (after_parse v); try discriminate.
    destruct (Number.isFinite n0) eqn:F; [|discriminate].
    now intros [= <-]. }
  split; [exact (Hfinite fallback)|]. split.
  - intros n. unfold getNumberOptional.
    destruct (has this key) as [[|]|e]; simpl; try discriminate.
    destruct (getNumber this key VUndefined) as [x|e] eqn:Hx; simpl;
      [|discriminate].
    intros [= <-]. exact (Hfinite _ _ Hx).
  - intros n Hget Hn. rewrite getNumber_after_parse, Hget. simpl.
    now rewrite Hn.
Qed.

Lemma blank_has_no_point (s : string) :
  trim_start s = "" -> includes s "." = false.
Proof.
  induction s as [|c s IH]; intros H; [reflexivity|].
  simpl in H. destruct (is_white_space c) eqn:Hc; [|discriminate].
  rewrite includes_unfold, (IH H), orb_false_r.
  cbn [String.prefix].
  destruct (ascii_dec "." c) as [<-|_]; [discriminate Hc | reflexivity].
Qed.

Lemma parseInt_blank (s : string) : trim_start s = "" -> parseInt s = nan.
Proof. unfold parseInt. intros ->. reflexivity. Qed.

(** X14: [getNumber] rejects the empty string and every string of white
    space alone: nothing in it parses, so the value validated is NaN. *)
Theorem getNumber_rejects_blank_strings {host : Host} (this : DataPicker)
    (key : string) (fallback : value) (s : string) :
  get this key fallback = Ok (VString s) ->
  trim_start s = "" ->
  getNumber this key fallback
  = Throw (Invalid_value this key "number" (VNumber nan)).
Proof.
  intros Hget Hblank. unfold getNumber. rewrite Hget. simpl.
  now rewrite (blank_has_no_point s Hblank), (parseInt_blank s Hblank).
Qed.

Lemma getNumber_rejects_blank_strings_witness :
  get (mkDataPicker "process.env" (singleton "PORT" (VString "  ")))
    "PORT" VUndefined = Ok (VString "  ")
  /\ trim_start "  " = ""
  /\ getNumber (host := reference_host)
       (mkDataPicker "process.env" (singleton "PORT" (VString "  ")))
       "PORT" VUndefined
     = Throw (TypeError
                "Invalid value for PORT in process.env (expected number, got: NaN)").
Proof.
  split; [reflexivity|]. split; [reflexivity|].
  exact (getNumber_rejects_blank_strings (host := reference_host)
           (mkDataPicker "process.env" (singleton "PORT" (VString "  ")))
           "PORT" VUndefined "  " eq_refl eq_refl).
Defined.

(** X15: every date [getDate] returns is either the [Date] the lookup
    found or [new Date(t)] for a finite, strictly positive [t] that is the
    looked-up number or the parse of the looked-up string; it never builds
    a date from anything else. *)
Theorem getDate_result_origin {host : Host} (this : DataPicker)
    (key : string) (fallback : value) (d : Date) :
  getDate this key fallback = Ok d ->
  get this key fallback = Ok (VDate d)
  \/ (exists t,
        Number.isFinite t = true /\ Number.positive t = true
        /\ d = new_Date t
        /\ (get this key fallback = Ok (VNumber t)
            \/ exists s, get this key fallback = Ok (VString s)
                         /\ t = Date_parse s)).
Proof.
  unfold getDate.
  destruct (get this key fallback) as [v|e]; simpl; [|discriminate].
  destruct v; try discriminate.
  - destruct (Number.isFinite n) eqn:F; simpl; [|discriminate].
    destruct (Number.positive n) eqn:P; [|discriminate].
    intros [= <-]. right. exists n. auto.
  - destruct (Number.isFinite (Date_parse s)) eqn:F; simpl; [|discriminate].
    destruct (Number.positive (Date_parse s)) eqn:P; [|discriminate].
    intros [= <-]. right. exists (Date_parse s). eauto 8.
  - intros [= <-]. now left.
Qed.

Lemma getDate_result_origin_witness :
  getDate (host := reference_host)
    (mkDataPicker "event" (singleton "at" (VString "2020-01-01")))
    "at" VUndefined
  = Ok (mkDate 1577836800000%float)
  /\ (get (mkDataPicker "event" (singleton "at" (VString "2020-01-01")))
        "at" VUndefined = Ok (VDate (mkDate 1577836800000%float))
      \/ exists t,
           Number.isFinite t = true /\ Number.positive t = true
           /\ mkDate 1577836800000%float = new_Date t
           /\ (get (mkDataPicker "event" (singleton "at" (VString "2020-01-01")))
                 "at" VUndefined = Ok (VNumber t)
               \/ exists s,
                    get (mkDataPicker "event"
                           (singleton "at" (VString "2020-01-01")))
                      "at" VUndefined = Ok (VString s)
                    /\ t = Reference.Date_parse s)).
Proof.
  split; [reflexivity|].
  exact (getDate_result_origin (host := reference_host)
           (mkDataPicker "event" (singleton "at" (VString "2020-01-01")))
           "at" VUndefined (mkDate 1577836800000%float) eq_refl).
Defined.

(** ** Construction and fallbacks *)

(** X16: the TypeError of the constructor names the [typeof] of the
    rejected source and its rendering. *)
Theorem constructor_error_names_type_and_value {host : Host} (label : string)
    (source : value) :
  typeof source <> "object" ->
  exists m,
    new_DataPicker label source = Throw (TypeError m)
    /\ mentions m [typeof source; inspect source].
Proof.
  intros Htype. unfold new_DataPicker.
  destruct (typeof source =? "object") eqn:E.
  - apply String.eqb_eq in E. now elim Htype.
  - cbn [negb]. eexists. split; [reflexivity|].
    unfold mentions. repeat constructor; find_part.
Qed.

Lemma constructor_error_names_type_and_value_witness :
  typeof (VNumber 5%float) <> "object"
  /\ exists m,
       new_DataPicker (host := reference_host) "config" (VNumber 5%float)
       = Throw (TypeError m)
       /\ mentions m ["number"; "5"].
Proof.
  split; [discriminate|].
  exact (constructor_error_names_type_and_value (host := reference_host)
           "config" (VNumber 5%float) ltac:(discriminate)).
Defined.

(** X17: [env()] wraps the environment of the host under the label
    [process.env]: when that environment is a non-null object the call
    succeeds, and a variable it does not hold is reported as missing in
    [process.env]. *)
Theorem env_wraps_process_env {host : Host} :
  structured process_env ->
  exists picker,
    env = Ok picker
    /\ name picker = "process.env"
    /\ raw picker = process_env
    /\ forall key,
         own_property process_env key = None ->
         getString picker key VUndefined
         = Throw (ReferenceError ("Missing key " ++ key ++ " in process.env")).
Proof.
  intros Henv. unfold env.
  rewrite (new_DataPicker_structured _ _ Henv).
  eexists. split; [reflexivity|]. split; [reflexivity|]. split; [reflexivity|].
  intros key Hnone.
  assert (Habsent : has (mkDataPicker "process.env" process_env) key = Ok false).
  { destruct (has_total (mkDataPicker "process.env" process_env) key Henv)
      as [H|H]; [|exact H].
    destruct (has_true _ _ H) as [stored [Hown _]]. simpl in Hown. congruence. }
  unfold getString. now rewrite get_absent.
Qed.

Lemma env_wraps_process_env_witness :
  structured (process_env (Host := reference_host))
  /\ exists picker,
       env (host := reference_host) = Ok picker
       /\ name picker = "process.env"
       /\ getString (host := reference_host) picker "PORT" VUndefined
          = Throw (ReferenceError "Missing key PORT in process.env").
Proof.
  assert (Henv : structured (process_env (Host := reference_host))).
  { split; [reflexivity | discriminate]. }
  split; [exact Henv|].
  destruct (env_wraps_process_env (host := reference_host) Henv)
    as [picker [Hpicker [Hname [_ Hmissing]]]].
  exists picker. split; [exact Hpicker|]. split; [exact Hname|].
  exact (Hmissing "PORT" eq_refl).
Defined.

(** X18: over a non-null source a call that gives a fallback cannot fail
    in the lookup: [get] returns the stored value or the fallback, and
    [getBoolean] returns a boolean. *)
Theorem fallback_prevents_lookup_failure (this : DataPicker) (key : string)
    (fallback : value) :
  structured (data this) ->
  fallback <> VUndefined ->
  ((has this key = Ok false /\ get this key fallback = Ok fallback)
   \/ (exists stored,
         own_property (data this) key = Some stored
         /\ get this key fallback = Ok stored))
  /\ is_Ok (getBoolean this key fallback) = true.
Proof.
  intros Hdata Hf.
  assert (Hget : (has this key = Ok false /\ get this key fallback = Ok fallback)
                 \/ (exists stored,
                       own_property (data this) key = Some stored
                       /\ get this key fallback = Ok stored)).
  { destruct (has_total this key Hdata) as [H|H].
    - right. destruct (has_true this key H) as [stored [Hown Hmem]].
      exists stored. split; [exact Hown|]. now rewrite get_present, Hmem.
    - left. split; [exact H|]. now rewrite get_absent, is_undefined_false. }
  split; [exact Hget|].
  unfold getBoolean.
  destruct Hget as [[_ ->]|[stored [_ ->]]]; simpl;
    match goal with |- context [match ?v with _ => _ end] => now destruct v end.
Qed.

Lemma fallback_prevents_lookup_failure_witness :
  structured (VObject [])
  /\ VString "development" <> VUndefined
  /\ get (mkDataPicker "process.env" (VObject [])) "NODE_ENV"
       (VString "development") = Ok (VString "development").
Proof.
  assert (Hdata : structured (VObject [])).
  { split; [reflexivity | discriminate]. }
  split; [exact Hdata|]. split; [discriminate|].
  destruct (proj1 (fallback_prevents_lookup_failure
                     (mkDataPicker "process.env" (VObject [])) "NODE_ENV"
                     (VString "development") Hdata ltac:(discriminate)))
    as [[_ Hget]|[stored [Hown _]]].
  - exact Hget.
  - discriminate Hown.
Defined.
